(** * StatEase front end: selection, upload and result rendering

    A shallow embedding of the TypeScript components of the StatEase
    front end:

    - [types/analysis.ts]            -> [StatisticalTest], [VariableSelection]
    - [components/AnalysisSelection] -> [AnalysisSelection] (registry, handlers)
    - [components/AnalysisResults]   -> [AnalysisResults] ([renderResults])
    - [components/FileUpload]        -> [FileUpload] ([processFile], [uploadFile])
    - [App.tsx]                      -> [App] ([handleAnalyze] and friends)

    React state is modelled explicitly.  A component's state variables are
    the fields of a record; an event handler is either a function on that
    record (AnalysisSelection, where every setter call stores a value
    computed from the state of the current render) or the list of setter
    and network calls it performs (App, FileUpload), replayed on the
    state by [run]. *)

From Stdlib Require Import ZArith Ascii String List Lia.
From stdpp Require Import base decidable option list strings gmap.

Local Open Scope string_scope.
Local Open Scope Z_scope.

(** ** types/analysis.ts *)

Module StatisticalTest.

(** [requirements.variables] is a JS number; the registry only stores
    integers ([-1] stands for "any number of variables"). *)
Record requirements_t : Type := {
  variables : Z;
  variableTypes : list string;
  dataRequirements : list string
}.

Record t : Type := {
  id : string;
  name : string;
  description : string;
  category : string;
  requirements : requirements_t
}.

(** The string literals admitted by the type of [category]. *)
Definition categories : list string :=
  ["comparison"; "correlation"; "regression"; "nonparametric"; "normality"].

#[global] Instance requirements_eq_dec : EqDecision requirements_t.
Proof. solve_decision. Defined.

#[global] Instance eq_dec : EqDecision t.
Proof. solve_decision. Defined.

End StatisticalTest.

Module VariableSelection.

(** [groupVariable?: string]: [None] is [undefined]. *)
Record t : Type := {
  testId : string;
  variables : list string;
  groupVariable : option string
}.

End VariableSelection.

(** ** components/AnalysisSelection.tsx *)

Module AnalysisSelection.

Import StatisticalTest.

Definition mkTest (i n d c : string) (k : Z) (vt dr : list string)
  : StatisticalTest.t :=
  {| id := i; name := n; description := d; category := c;
     requirements :=
       {| variables := k; variableTypes := vt; dataRequirements := dr |} |}.

Definition statisticalTests : list StatisticalTest.t := [
  mkTest "independent_t" "Independent t-test"
    "Compare means between two independent groups" "comparison"
    2 ["numeric"; "categorical"] ["Normality"; "Equal variances"];
  mkTest "paired_t" "Paired t-test"
    "Compare means from the same group at different times" "comparison"
    2 ["numeric"; "numeric"] ["Normality"; "Paired measurements"];
  mkTest "anova" "One-way ANOVA"
    "Compare means between three or more groups" "comparison"
    2 ["numeric"; "categorical"]
    ["Normality"; "Equal variances"; "Independence"];
  mkTest "pearson" "Pearson Correlation"
    "Measure linear relationship between two continuous variables"
    "correlation"
    2 ["numeric"; "numeric"] ["Linear relationship"; "Normality"];
  mkTest "spearman" "Spearman Correlation"
    "Measure monotonic relationship between two variables" "correlation"
    2 ["numeric"; "numeric"] ["Monotonic relationship"];
  mkTest "chi_square" "Chi-square Test"
    "Test association between categorical variables" "nonparametric"
    2 ["categorical"; "categorical"] ["Expected frequencies >5"];
  mkTest "linear_regression" "Linear Regression"
    "Predict continuous outcome based on predictor variables" "regression"
    (-1) ["numeric"; "numeric"]
    ["Linearity"; "Independence"; "Homoscedasticity"; "Normality"];
  mkTest "mann_whitney" "Mann-Whitney U Test"
    "Non-parametric alternative to independent t-test" "nonparametric"
    2 ["numeric"; "categorical"]
    ["Ordinal data or non-normal distributions"];
  mkTest "shapiro_wilk" "Shapiro-Wilk Test"
    "Test for normality of data distribution" "normality"
    1 ["numeric"] ["Continuous data"];
  mkTest "levene" "Levene's Test"
    "Test for equality of variances between groups" "normality"
    2 ["numeric"; "categorical"] ["Continuous dependent variable"]
].

(** The three [useState] cells of the component. *)
Record State : Type := {
  selectedTest : string;
  selectedVariables : list string;
  groupVariable : string
}.

Definition initial : State :=
  {| selectedTest := ""; selectedVariables := []; groupVariable := "" |}.

(** [arr.includes(x)] on an array of strings. *)
Definition includes (arr : list string) (x : string) : bool :=
  bool_decide (x ∈ arr).

Section Component.

(** [registry] is the value of the module-level binding
    [statisticalTests] that the handlers close over, [columnTypes]
    the component's prop. *)
Context (registry : list StatisticalTest.t)
        (columnTypes : gmap string string).

(** [Object.entries(columnTypes)]. *)
Definition entries : list (string * string) := map_to_list columnTypes.

Definition numericColumns : list string :=
  (filter (λ e, e.2 = "numeric") entries).*1.

Definition categoricalColumns : list string :=
  (filter (λ e, e.2 = "categorical") entries).*1.

Definition allColumns : list string := entries.*1.

Definition handleTestSelect (testId : string) (s : State) : State :=
  {| selectedTest := testId; selectedVariables := []; groupVariable := "" |}.

(** [statisticalTests.find(t => t.id === selectedTest)]. *)
Definition findTest (testId : string) : option StatisticalTest.t :=
  List.find (λ t, bool_decide (id t = testId)) registry.

Definition setSelectedVariables (vs : list string) (s : State) : State :=
  {| selectedTest := selectedTest s;
     selectedVariables := vs;
     groupVariable := groupVariable s |}.

(** [selectedVariables.length < (n === -1 ? Infinity : n)]. *)
Definition belowLimit (len : nat) (n : Z) : bool :=
  if n =? -1 then true else Z.of_nat len <? n.

Definition handleVariableSelect (variable : string) (s : State) : State :=
  match findTest (selectedTest s) with
  | None => s
  | Some test =>
      if variables (requirements test) =? 1 then
        setSelectedVariables [variable] s
      else if includes (selectedVariables s) variable then
        setSelectedVariables
          (filter (λ v, v ≠ variable) (selectedVariables s)) s
      else if belowLimit (length (selectedVariables s))
                         (variables (requirements test)) then
        setSelectedVariables (selectedVariables s ++ [variable]) s
      else s
  end.

(** [Some sel] when [onTestSelect(sel)] is called, [None] on the early
    return.  The empty string is the only falsy string. *)
Definition handleRunTest (s : State) : option VariableSelection.t :=
  if bool_decide (selectedTest s = "") || (length (selectedVariables s) =? 0)%nat
  then None
  else Some {| VariableSelection.testId := selectedTest s;
               VariableSelection.variables := selectedVariables s;
               VariableSelection.groupVariable :=
                 if bool_decide (groupVariable s = "") then None
                 else Some (groupVariable s) |}.

(** The callback passed to [statisticalTests.filter]. *)
Definition keepTest (test : StatisticalTest.t) : bool :=
  let hasNumeric := bool_decide (0 < length numericColumns)%nat in
  let hasCategorical := bool_decide (0 < length categoricalColumns)%nat in
  if includes (variableTypes (requirements test)) "numeric"
     && negb hasNumeric then false
  else if includes (variableTypes (requirements test)) "categorical"
          && negb hasCategorical then false
  else true.

Definition getAvailableTests : list StatisticalTest.t :=
  filter (λ test, keepTest test) registry.

Definition availableTests : list StatisticalTest.t := getAvailableTests.

(** The [disabled] attribute of the checkbox rendered for [column]:
    [!selectedVariables.includes(column) && selectedVariables.length >=
     (find(..)?.requirements.variables === -1 ? Infinity
      : find(..)?.requirements.variables || 0)]. *)
Definition checkboxDisabled (column : string) (s : State) : bool :=
  negb (includes (selectedVariables s) column) &&
  match findTest (selectedTest s) with
  | None => true
  | Some test =>
      if variables (requirements test) =? -1 then false
      else variables (requirements test) <=? Z.of_nat (length (selectedVariables s))
  end.

(** The "Run Analysis" button is rendered when [selectedTest] is truthy
    and [selectedVariables.length > 0]. *)
Definition runButtonShown (s : State) : bool :=
  negb (bool_decide (selectedTest s = "")) &&
  bool_decide (0 < length (selectedVariables s))%nat.

(** What the user can do with the rendered component.  A test card
    exists for each entry of [availableTests] and calls
    [handleTestSelect(test.id)]; a checkbox exists for each column once
    a test is selected and calls [handleVariableSelect(column)] unless
    it is disabled. *)
Inductive Event : Type :=
| ClickTest (test : StatisticalTest.t)
| ToggleColumn (column : string)
| ClickRun.

Definition enabled (e : Event) (s : State) : Prop :=
  match e with
  | ClickTest test => test ∈ availableTests
  | ToggleColumn column =>
      selectedTest s ≠ "" ∧ column ∈ allColumns ∧
      checkboxDisabled column s = false
  | ClickRun => runButtonShown s = true
  end.

(** State after the event, and the selection given to [onTestSelect]. *)
Definition handle (e : Event) (s : State) : State * option VariableSelection.t :=
  match e with
  | ClickTest test => (handleTestSelect (id test) s, None)
  | ToggleColumn column => (handleVariableSelect column s, None)
  | ClickRun => (s, handleRunTest s)
  end.

Inductive reachable : State → Prop :=
| reachable_initial : reachable initial
| reachable_step e s :
    reachable s → enabled e s → reachable (handle e s).1.

(** A selection is emitted when some reachable state runs the test. *)
Definition emitted (sel : VariableSelection.t) : Prop :=
  ∃ s, reachable s ∧ enabled ClickRun s ∧ handleRunTest s = Some sel.

End Component.

(** *** The module as a whole

    [statisticalTests] is a [const] binding to a JS array, which any code
    of the module could still update in place.  [Module_] keeps the array
    next to the component state, and [dispatch] threads it through every
    operation of the module the way the source uses it: [find] and
    [filter] read it and build new values. *)
Record Module_ : Type := {
  statisticalTests_cell : list StatisticalTest.t;
  component : State
}.

Definition load : Module_ :=
  {| statisticalTests_cell := statisticalTests; component := initial |}.

Inductive Operation : Type :=
| OpHandleTestSelect (testId : string)
| OpHandleVariableSelect (variable : string)
| OpHandleRunTest
| OpGetAvailableTests
| OpRender.

Definition dispatch (columnTypes : gmap string string)
    (op : Operation) (m : Module_) : Module_ :=
  let registry := statisticalTests_cell m in
  match op with
  | OpHandleTestSelect testId =>
      {| statisticalTests_cell := registry;
         component := handleTestSelect testId (component m) |}
  | OpHandleVariableSelect variable =>
      {| statisticalTests_cell := registry;
         component := handleVariableSelect registry variable (component m) |}
  | OpHandleRunTest =>
      let _ := handleRunTest (component m) in m
  | OpGetAvailableTests =>
      let _ := getAvailableTests registry columnTypes in m
  | OpRender =>
      let _ := map (λ c, checkboxDisabled registry c (component m))
                   (allColumns columnTypes) in m
  end.

Definition execute (columnTypes : gmap string string)
    (ops : list Operation) (m : Module_) : Module_ :=
  fold_left (λ m op, dispatch columnTypes op m) ops m.

End AnalysisSelection.

(** ** JavaScript values

    The components exchange untyped ([any]) data with the server.  [value]
    covers the JSON-shaped values that occur; numbers are integers here
    (no computation is done on them, only strict equality and truthiness,
    so [NaN] and fractions are left out). *)

Module JS.

#[warnings="-register-all"] Inductive value : Type :=
| undefined
| null
| boolean (b : bool)
| number (n : Z)
| str (s : string)
| array (items : list value)
| object (fields : list (string * value)).

(** [ToBoolean]. *)
Definition truthy (v : value) : bool :=
  match v with
  | undefined | null => false
  | boolean b => b
  | number n => negb (n =? 0)
  | str s => negb (bool_decide (s = ""))
  | array _ | object _ => true
  end.

(** First binding of [key] in a property list. *)
Fixpoint lookup_field (key : string) (fields : list (string * value)) : value :=
  match fields with
  | [] => undefined
  | (k, v) :: rest => if bool_decide (k = key) then v else lookup_field key rest
  end.

(** [v.key] for the property names used by the program (none of them is
    a built-in property of strings, numbers, booleans or arrays).  [None]
    is the [TypeError] thrown on [undefined] and [null]. *)
Definition get (v : value) (key : string) : option value :=
  match v with
  | undefined | null => None
  | object fields => Some (lookup_field key fields)
  | _ => Some undefined
  end.

(** [v?.key]. *)
Definition get_opt (v : value) (key : string) : value :=
  match get v key with
  | Some x => x
  | None => undefined
  end.

(** [a || b]. *)
Definition or (a b : value) : value := if truthy a then a else b.

(** [v === 'literal']. *)
Definition is_str (v : value) (literal : string) : bool :=
  match v with
  | str s => bool_decide (s = literal)
  | _ => false
  end.

(** [v === n] for a number literal. *)
Definition is_number (v : value) (n : Z) : bool :=
  match v with
  | number k => k =? n
  | _ => false
  end.

(** The error object of a failed property access.  A real [TypeError] also
    has a non-empty [message] whose text depends on the engine; it is left
    out, so where the program would store that text the model stores the
    text that follows it in the [||] chain.  Both are non-empty strings. *)
Definition TypeError : value :=
  object [("name", str "TypeError")].

(** How an awaited request ends. *)
Inductive settled : Type :=
| fulfilled (response : value)
| rejected (error : value).

End JS.

(** ** components/AnalysisResults.tsx *)

Module AnalysisResults.

(** The branch of the [switch] that [renderResults] enters: one constructor
    for each [case] body and one for the default.  The default branch reads
    nothing more and is a finished rendering.  The body of a labelled branch
    goes on to read fields of [results] ([results.group1.name],
    [results.p_value.toFixed(3)], ...) and throws when they are missing;
    those reads are not modelled, a labelled constructor says which body is
    entered, not that it renders. *)
Inductive Rendering : Type :=
| IndependentTTestPanel
| PairedTTestPanel
| OneWayAnovaPanel
| CorrelationPanel
| ChiSquarePanel
| ShapiroWilkPanel
| LevenePanel
| UnknownTestType.

(** [switch (results.test)]; a [case] label matches by [===]. *)
Definition renderResults (test : JS.value) : Rendering :=
  if JS.is_str test "independent_t_test" then IndependentTTestPanel
  else if JS.is_str test "paired_t_test" then PairedTTestPanel
  else if JS.is_str test "one_way_anova" then OneWayAnovaPanel
  else if JS.is_str test "pearson_correlation" then CorrelationPanel
  else if JS.is_str test "spearman_correlation" then CorrelationPanel
  else if JS.is_str test "chi_square_test" then ChiSquarePanel
  else if JS.is_str test "shapiro_wilk_test" then ShapiroWilkPanel
  else if JS.is_str test "levene_test" then LevenePanel
  else UnknownTestType.

#[global] Instance Rendering_eq_dec : EqDecision Rendering.
Proof. solve_decision. Defined.

(** The [case] labels of the switch. *)
Definition caseLabels : list string :=
  ["independent_t_test"; "paired_t_test"; "one_way_anova";
   "pearson_correlation"; "spearman_correlation"; "chi_square_test";
   "shapiro_wilk_test"; "levene_test"].


End AnalysisResults.

(** ** components/FileUpload.tsx *)

Module FileUpload.

(** The fields of a DOM [File] that the component reads; [size] is in
    bytes. *)
Record File : Type := {
  name : string;
  type : string;
  size : Z
}.

Definition acceptedTypes : list string :=
  [".csv"; ".xlsx";
   "application/vnd.openxmlformats-officedocument.spreadsheetml.sheet";
   "text/csv"].

(** [s.split('.')], accumulating the current piece in [piece]. *)
Fixpoint split_dot (piece : string) (s : string) : list string :=
  match s with
  | EmptyString => [piece]
  | String c rest =>
      if bool_decide (c = "."%char) then piece :: split_dot "" rest
      else split_dot (piece +:+ String c "") rest
  end.

(** [arr.pop()] on a fresh array: its last element. *)
Definition pop (arr : list string) : option string := last arr.

(** [toLowerCase] on the ASCII letters.  Characters outside ASCII are kept;
    none of them lowers to a letter of "csv" or "xlsx". *)
Definition lower_char (c : ascii) : ascii :=
  let n := nat_of_ascii c in
  if (65 <=? n)%nat && (n <=? 90)%nat then ascii_of_nat (n + 32) else c.

Fixpoint toLowerCase (s : string) : string :=
  match s with
  | EmptyString => EmptyString
  | String c rest => String (lower_char c) (toLowerCase rest)
  end.

(** [file.name.split('.').pop()?.toLowerCase()] rendered by the template
    literal [`.${fileExtension}`] ([undefined] prints as "undefined"). *)
Definition dotExtension (file : File) : string :=
  match pop (split_dot "" (name file)) with
  | Some ext => "." +:+ toLowerCase ext
  | None => ".undefined"
  end.

Definition includes (arr : list string) (x : string) : bool :=
  bool_decide (x ∈ arr).

Definition acceptedType (file : File) : bool :=
  includes acceptedTypes (dotExtension file) || includes acceptedTypes (type file).

Definition maxSize : Z := 10 * 1024 * 1024.

(** Setter calls and outside calls made by the handlers, in order. *)
Inductive Call : Type :=
| setUploadError (message : JS.value)
| setSelectedFile (file : File)
| setIsUploading (flag : bool)
| axios_post (path : string) (file : File)
| onFileUpload (data : JS.value)
| console_error (label : string) (error : JS.value).

(** The [catch] block of [uploadFile].  The second component is [false]
    when the block itself throws (a property read on [undefined]). *)
Definition uploadFailed (error : JS.value) : list Call * bool :=
  match JS.get error "code" with
  | None => ([console_error "Upload error:" error], false)
  | Some code =>
      let status := JS.get_opt (JS.get_opt error "response") "status" in
      if JS.is_str code "ECONNABORTED" then
        ([console_error "Upload error:" error;
          setUploadError (JS.str "Upload timeout. Please try a smaller file.")], true)
      else if JS.is_number status 413 then
        ([console_error "Upload error:" error;
          setUploadError (JS.str "File too large. Maximum size is 10MB.")], true)
      else if JS.is_number status 400 then
        match JS.get (JS.get_opt (JS.get_opt error "response") "data") "detail" with
        | Some detail =>
            ([console_error "Upload error:" error;
              setUploadError (JS.or detail (JS.str "Invalid file format."))], true)
        | None => ([console_error "Upload error:" error], false)
        end
      else
        ([console_error "Upload error:" error;
          setUploadError
            (JS.or (JS.get_opt (JS.get_opt (JS.get_opt error "response") "data") "detail")
               (JS.or (JS.get_opt error "message")
                  (JS.str "Failed to upload file. Please check your connection and try again.")))],
         true)
  end.

(** The [try] block after the request was answered: [inl] on normal
    completion, [inr] with the thrown value otherwise. *)
Definition uploadAnswered (response : JS.value) : list Call + JS.value :=
  match JS.get response "data" with
  | None => inr JS.TypeError
  | Some data =>
      match JS.get data "success" with
      | None => inr JS.TypeError
      | Some success =>
          if JS.truthy success then inl [onFileUpload data]
          else
            match JS.get data "error" with
            | None => inr JS.TypeError
            | Some e => inl [setUploadError (JS.or e (JS.str "Upload failed"))]
            end
      end
  end.

(** [uploadFile(file)]; [server] answers the POST to [/upload]. *)
Definition uploadFile (server : File → JS.settled) (file : File) : list Call :=
  [setIsUploading true; setUploadError JS.null; axios_post "/upload" file] ++
  match server file with
  | JS.fulfilled response =>
      match uploadAnswered response with
      | inl calls => calls
      | inr error => (uploadFailed error).1
      end
  | JS.rejected error => (uploadFailed error).1
  end ++
  [setIsUploading false].

Definition processFile (server : File → JS.settled) (file : File) : list Call :=
  [setUploadError JS.null] ++
  if negb (includes acceptedTypes (dotExtension file)) &&
     negb (includes acceptedTypes (type file)) then
    [setUploadError (JS.str "Please upload a CSV or XLSX file only.")]
  else if maxSize <? size file then
    [setUploadError (JS.str
       "File size must be less than 10MB. For larger files, please use sample mode.")]
  else
    [setSelectedFile file] ++ uploadFile server file.

(** A call that starts an upload request. *)
Definition isUploadRequest (c : Call) : Prop :=
  match c with
  | axios_post _ _ => True
  | _ => False
  end.

#[global] Instance isUploadRequest_dec c : Decision (isUploadRequest c).
Proof. destruct c; simpl; apply _. Defined.

End FileUpload.

(** ** App.tsx *)

Module App.

Inductive View : Type := upload | analysis | results.

(** The [useState] cells of [App]. *)
Record State : Type := {
  darkMode : bool;
  uploadData : JS.value;
  currentView : View;
  analysisResults : JS.value;
  isAnalyzing : bool;
  analysisSelection : JS.value
}.

Definition initial : State :=
  {| darkMode := false; uploadData := JS.null; currentView := upload;
     analysisResults := JS.null; isAnalyzing := false;
     analysisSelection := JS.null |}.

(** Setter calls and outside calls made by the handlers, in order. *)
Inductive Call : Type :=
| setUploadData (data : JS.value)
| setCurrentView (view : View)
| setAnalysisResults (r : JS.value)
| setIsAnalyzing (flag : bool)
| setAnalysisSelection (selection : JS.value)
| axios_post (path : string) (body : JS.value)
| console_error (label : string) (error : JS.value)
| alert (message : JS.value).

(** Effect of one call on the state cells. *)
Definition apply (c : Call) (s : State) : State :=
  match c with
  | setUploadData d =>
      {| darkMode := darkMode s; uploadData := d; currentView := currentView s;
         analysisResults := analysisResults s; isAnalyzing := isAnalyzing s;
         analysisSelection := analysisSelection s |}
  | setCurrentView v =>
      {| darkMode := darkMode s; uploadData := uploadData s; currentView := v;
         analysisResults := analysisResults s; isAnalyzing := isAnalyzing s;
         analysisSelection := analysisSelection s |}
  | setAnalysisResults r =>
      {| darkMode := darkMode s; uploadData := uploadData s;
         currentView := currentView s;
         analysisResults := r; isAnalyzing := isAnalyzing s;
         analysisSelection := analysisSelection s |}
  | setIsAnalyzing b =>
      {| darkMode := darkMode s; uploadData := uploadData s;
         currentView := currentView s;
         analysisResults := analysisResults s; isAnalyzing := b;
         analysisSelection := analysisSelection s |}
  | setAnalysisSelection sel =>
      {| darkMode := darkMode s; uploadData := uploadData s;
         currentView := currentView s;
         analysisResults := analysisResults s; isAnalyzing := isAnalyzing s;
         analysisSelection := sel |}
  | axios_post _ _ | console_error _ _ | alert _ => s
  end.

Definition run (calls : list Call) (s : State) : State :=
  fold_left (λ s c, apply c s) calls s.

Definition handleFileUpload (data : JS.value) : list Call :=
  [setUploadData data; setCurrentView analysis].

Definition handleBackToAnalysis : list Call :=
  [setCurrentView analysis; setAnalysisResults JS.null].

Definition handleBackToUpload : list Call :=
  [setUploadData JS.null; setCurrentView upload; setAnalysisResults JS.null;
   setAnalysisSelection JS.null].

(** The body of the POST to [/analyze]; [None] when building it throws. *)
Definition analyzeRequest (uploadData selection : JS.value) : option JS.value :=
  testId ← JS.get selection "testId";
  variables ← JS.get selection "variables";
  groupVariable ← JS.get selection "groupVariable";
  filename ← JS.get uploadData "filename";
  Some (JS.object [("test_id", testId); ("variables", variables);
                   ("group_variable", groupVariable); ("filename", filename)]).

(** The [try] block after the request was answered: [inl] on normal
    completion, [inr] with the thrown value otherwise. *)
Definition analyzeAnswered (response : JS.value) : list Call + JS.value :=
  match JS.get response "data" with
  | None => inr JS.TypeError
  | Some data =>
      match JS.get data "success" with
      | None => inr JS.TypeError
      | Some success =>
          if JS.truthy success then
            inl [setAnalysisResults (JS.get_opt data "results");
                 setCurrentView results]
          else inl []
      end
  end.

(** The [catch] block of [handleAnalyze]. *)
Definition analyzeFailed (error : JS.value) : list Call :=
  match JS.get error "response" with
  | None => [console_error "Analysis error:" error]
  | Some response =>
      [console_error "Analysis error:" error;
       alert (JS.or (JS.get_opt (JS.get_opt response "data") "detail")
                    (JS.str "Failed to run analysis"))]
  end.

(** [handleAnalyze(selection)] called in a render whose state is [s];
    [server] answers the POST to [/analyze]. *)
Definition handleAnalyze (server : JS.value → JS.settled) (s : State)
    (selection : JS.value) : list Call :=
  [setIsAnalyzing true; setAnalysisSelection selection] ++
  match analyzeRequest (uploadData s) selection with
  | None => analyzeFailed JS.TypeError
  | Some body =>
      axios_post "/analyze" body ::
      match server body with
      | JS.fulfilled response =>
          match analyzeAnswered response with
          | inl calls => calls
          | inr error => analyzeFailed error
          end
      | JS.rejected error => analyzeFailed error
      end
  end ++
  [setIsAnalyzing false].

(** The request was answered and the answer reports success. *)
Definition reportsSuccess (server : JS.value → JS.settled) (s : State)
    (selection : JS.value) : option JS.value :=
  body ← analyzeRequest (uploadData s) selection;
  match server body with
  | JS.fulfilled response =>
      data ← JS.get response "data";
      success ← JS.get data "success";
      if JS.truthy success then Some data else None
  | JS.rejected _ => None
  end.

End App.

(** ** Vocabulary of the properties *)

Module Props.

Import StatisticalTest AnalysisSelection.

(** The declared arity of a test: a fixed count, or any count. *)
Definition arity (test : StatisticalTest.t) : Z := variables (requirements test).

Definition unbounded (test : StatisticalTest.t) : Prop := arity test = -1.

#[global] Instance unbounded_dec test : Decision (unbounded test).
Proof. unfold unbounded. apply _. Defined.

(** Some column of the dataset has declared type [ty]. *)
Definition hasColumnOfType (columnTypes : gmap string string) (ty : string) : Prop :=
  ∃ column, columnTypes !! column = Some ty.

(** If the test asks for a variable of type [ty], the dataset has one. *)
Definition requirementMet (columnTypes : gmap string string) (ty : string)
    (test : StatisticalTest.t) : Prop :=
  ty ∈ variableTypes (requirements test) → hasColumnOfType columnTypes ty.

(** A selection whose variable count is exactly the arity of its test, or
    at least two when the arity is unbounded. *)
Definition countMatchesArity (registry : list StatisticalTest.t)
    (sel : VariableSelection.t) : Prop :=
  ∀ test, findTest registry (VariableSelection.testId sel) = Some test →
    if decide (unbounded test)
    then (2 ≤ length (VariableSelection.variables sel))%nat
    else Z.of_nat (length (VariableSelection.variables sel)) = arity test.

(** A selection with at least one variable and no more than the arity of
    its test allows. *)
Definition countWithinArity (registry : list StatisticalTest.t)
    (sel : VariableSelection.t) : Prop :=
  ∃ test, test ∈ registry ∧ id test = VariableSelection.testId sel ∧
    (1 ≤ length (VariableSelection.variables sel))%nat ∧
    (¬ unbounded test →
     Z.of_nat (length (VariableSelection.variables sel)) ≤ arity test).

(** The state invariant of the component: the selected test is none or a
    registered one, no variable is selected twice, and a fixed arity bounds
    the number of selected variables. *)
Record Inv (registry : list StatisticalTest.t) (s : State) : Prop := {
  inv_test :
    selectedTest s = "" ∨ ∃ test, test ∈ registry ∧ id test = selectedTest s;
  inv_nodup : NoDup (selectedVariables s);
  inv_bound :
    ∀ test, findTest registry (selectedTest s) = Some test →
      ¬ unbounded test → Z.of_nat (length (selectedVariables s)) ≤ arity test
}.

(** State after [handleTestSelect(testId)] followed by a call of
    [handleVariableSelect] for each element of [picks]. *)
Definition afterPicks (registry : list StatisticalTest.t) (testId : string)
    (picks : list string) (s : State) : State :=
  fold_left (λ s v, handleVariableSelect registry v s) picks
            (handleTestSelect testId s).

(** A table of result tags, one for each test id, in which different
    registered tests have different tags. *)
Definition distinctTags (registry : list StatisticalTest.t)
    (tag : string → string) : Prop :=
  NoDup ((λ test, tag (id test)) <$> registry).

(** A tag table that agrees with the [case] labels of [renderResults] on the
    eight tests that have one. *)
Definition tagOf (testId : string) : string :=
  if bool_decide (testId = "independent_t") then "independent_t_test"
  else if bool_decide (testId = "paired_t") then "paired_t_test"
  else if bool_decide (testId = "anova") then "one_way_anova"
  else if bool_decide (testId = "pearson") then "pearson_correlation"
  else if bool_decide (testId = "spearman") then "spearman_correlation"
  else if bool_decide (testId = "chi_square") then "chi_square_test"
  else if bool_decide (testId = "shapiro_wilk") then "shapiro_wilk_test"
  else if bool_decide (testId = "levene") then "levene_test"
  else testId.

(** Datasets used as concrete inputs. *)
Definition mixedColumns : gmap string string :=
  <["score" := "numeric"]> (<["team" := "categorical"]> ∅).

Definition numericOnly : gmap string string :=
  <["score" := "numeric"]> (<["age" := "numeric"]> ∅).

(** The list stored by [handleVariableSelect(v)] when the selected test has
    arity [n] and [vs] is the current list (the body of the handler as a
    function of the list alone). *)
Definition toggle (n : Z) (v : string) (vs : list string) : list string :=
  if n =? 1 then [v]
  else if includes vs v then filter (λ x, x ≠ v) vs
  else if belowLimit (length vs) n then vs ++ [v]
  else vs.

(** The registry entry at position [i] (counted from 0). *)
Definition nthTest (i : nat) : StatisticalTest.t :=
  nth i statisticalTests (mkTest "" "" "" "" 0 [] []).

(** Selecting the independent t-test, ticking one column and running. *)
Definition oneColumnState : State :=
  handleVariableSelect statisticalTests "score"
    (handleTestSelect "independent_t" initial).

Definition oneColumnSelection : VariableSelection.t :=
  {| VariableSelection.testId := "independent_t";
     VariableSelection.variables := ["score"];
     VariableSelection.groupVariable := None |}.

(** A call that stores a result or switches the view. *)
Definition storesResultOrView (c : App.Call) : bool :=
  match c with
  | App.setAnalysisResults _ | App.setCurrentView _ => true
  | _ => false
  end.

(** A server whose answer to [/analyze] reports failure. *)
Definition failingServer (body : JS.value) : JS.settled :=
  JS.fulfilled (JS.object [("data",
    JS.object [("success", JS.boolean false);
               ("results", JS.object [("test", JS.str "pearson_correlation")])])]).

(** A server whose answer to [/analyze] reports success. *)
Definition answeringServer (body : JS.value) : JS.settled :=
  JS.fulfilled (JS.object [("data",
    JS.object [("success", JS.boolean true);
               ("results", JS.object [("test", JS.str "pearson_correlation")])])]).

Definition uploaded : JS.value := JS.object [("filename", JS.str "data.csv")].

Definition analysisState : App.State :=
  App.run (App.handleFileUpload uploaded) App.initial.

Definition pearsonSelection : JS.value :=
  JS.object [("testId", JS.str "pearson");
             ("variables", JS.array [JS.str "score"; JS.str "age"])].

(** Files used as concrete inputs. *)
Definition bigCsv : FileUpload.File :=
  {| FileUpload.name := "big.CSV"; FileUpload.type := "text/csv";
     FileUpload.size := 10 * 1024 * 1024 + 1 |}.

Definition fullCsv : FileUpload.File :=
  {| FileUpload.name := "full.csv"; FileUpload.type := "";
     FileUpload.size := 10 * 1024 * 1024 |}.

Definition okServer (file : FileUpload.File) : JS.settled :=
  JS.fulfilled (JS.object [("data", JS.object [("success", JS.boolean true)])]).

End Props.

(** ** Rendering a value as a JSX child *)

Module React.

(** [{v}] as a child of an element.  Strings and numbers are rendered as
    text, booleans, [null] and [undefined] as nothing, an array as the
    list of its items; a plain object makes React throw ("Objects are not
    valid as a React child"), which takes the component down. *)
Fixpoint validChild (v : JS.value) : bool :=
  match v with
  | JS.object _ => false
  | JS.array items => forallb validChild items
  | _ => true
  end.

End React.

(** ** components/ContactDeveloper.tsx *)

Module ContactDeveloper.

Record State : Type := {
  isLoading : bool;
  message : JS.value
}.

Definition initial : State := {| isLoading := false; message := JS.str "" |}.

Inductive Call : Type :=
| setIsLoading (flag : bool)
| setMessage (text : JS.value)
| axios_get (path : string).

Definition apply (c : Call) (s : State) : State :=
  match c with
  | setIsLoading b => {| isLoading := b; message := message s |}
  | setMessage m => {| isLoading := isLoading s; message := m |}
  | axios_get _ => s
  end.

Definition run (calls : list Call) (s : State) : State :=
  fold_left (λ s c, apply c s) calls s.

(** [handleContactClick()]; [server] is how the GET of [/contact] ends. *)
Definition handleContactClick (server : JS.settled) : list Call :=
  ([setIsLoading true; axios_get "/contact"] ++
  match server with
  | JS.fulfilled response =>
      match JS.get response "data" with
      | None => [setMessage (JS.str "Failed to contact developer.")]
      | Some data =>
          match JS.get data "message" with
          | None => [setMessage (JS.str "Failed to contact developer.")]
          | Some m => [setMessage (JS.or m (JS.str "Contact successful!"))]
          end
      end
  | JS.rejected _ => [setMessage (JS.str "Failed to contact developer.")]
  end ++
  [setIsLoading false])%list.

(** What the component shows. *)
Record View : Type := {
  buttonDisabled : bool;
  paragraphShown : bool
}.

(** The [return] of the component: [None] when rendering throws.  The
    button has [disabled={isLoading}]; [{message && <p>{message}</p>}]
    renders the paragraph with [message] as its child when [message] is
    truthy, and the falsy [message] itself (nothing, or the text of a
    number) when it is not. *)
Definition render (s : State) : option View :=
  if JS.truthy (message s) then
    if React.validChild (message s)
    then Some {| buttonDisabled := isLoading s; paragraphShown := true |}
    else None
  else Some {| buttonDisabled := isLoading s; paragraphShown := false |}.

End ContactDeveloper.

(** ** components/FileUpload.tsx: state and banners *)

Module Dropzone.

Import FileUpload.

(** The [useState] cells of [FileUpload]; a [null] file is [None]. *)
Record State : Type := {
  isDragging : bool;
  selectedFile : option File;
  isUploading : bool;
  uploadError : JS.value
}.

Definition initial : State :=
  {| isDragging := false; selectedFile := None; isUploading := false;
     uploadError := JS.null |}.

(** Effect of a call of [processFile] or [uploadFile] on the state cells. *)
Definition apply (c : FileUpload.Call) (s : State) : State :=
  match c with
  | setUploadError m =>
      {| isDragging := isDragging s; selectedFile := selectedFile s;
         isUploading := isUploading s; uploadError := m |}
  | setSelectedFile f =>
      {| isDragging := isDragging s; selectedFile := Some f;
         isUploading := isUploading s; uploadError := uploadError s |}
  | setIsUploading b =>
      {| isDragging := isDragging s; selectedFile := selectedFile s;
         isUploading := b; uploadError := uploadError s |}
  | axios_post _ _ | onFileUpload _ | console_error _ _ => s
  end.

Definition run (calls : list FileUpload.Call) (s : State) : State :=
  fold_left (λ s c, apply c s) calls s.

(** The two banners under the drop zone. *)
Record Banners : Type := {
  errorShown : bool;
  successShown : option File
}.

(** The banners of the component's [return]: [None] when rendering throws.
    [{uploadError && (.. <p>{uploadError}</p> ..)}] is the red banner, with
    [uploadError] as a child; [{selectedFile && !isUploading && !uploadError
    && ..}] is the green one, which shows the name of the file and its size
    through [formatFileSize] (a string for every number). *)
Definition render (s : State) : option Banners :=
  if JS.truthy (uploadError s) then
    if React.validChild (uploadError s)
    then Some {| errorShown := true; successShown := None |}
    else None
  else
    Some {| errorShown := false;
            successShown :=
              match selectedFile s with
              | Some f => if negb (isUploading s) then Some f else None
              | None => None
              end |}.

(** The files handed to [axios.post] by a list of calls. *)
Definition posted (calls : list FileUpload.Call) : list File :=
  omap (λ c, match c with axios_post _ f => Some f | _ => None end) calls.

(** The data handed to [onFileUpload] by a list of calls. *)
Definition delivered (calls : list FileUpload.Call) : list JS.value :=
  omap (λ c, match c with onFileUpload d => Some d | _ => None end) calls.

(** The answer to the upload reports success: its [data]. *)
Definition uploadSucceeded (outcome : JS.settled) : option JS.value :=
  match outcome with
  | JS.fulfilled response =>
      data ← JS.get response "data";
      success ← JS.get data "success";
      if JS.truthy success then Some data else None
  | JS.rejected _ => None
  end.

(** The calls of [uploadFile] between the request and the [finally]
    block. *)
Definition afterRequest (outcome : JS.settled) : list FileUpload.Call :=
  match outcome with
  | JS.fulfilled response =>
      match uploadAnswered response with
      | inl calls => calls
      | inr error => (uploadFailed error).1
      end
  | JS.rejected error => (uploadFailed error).1
  end.


(** The file passes both checks of [processFile]. *)
Definition valid (file : File) : bool :=
  acceptedType file && (size file <=? maxSize).

(** The string contains a dot. *)
Definition hasDot (s : string) : Prop := "."%char ∈ list_ascii_of_string s.

End Dropzone.

(** ** App.tsx: the sample data set, and [handleAnalyze] around its [await] *)

Module Session.

Import App.

(** The [FormData] posted by [handleUseSample]: one file built from the
    text of [/sample.csv]. *)
Definition sampleForm (text : JS.value) : JS.value :=
  JS.object [("file", JS.object [("name", JS.str "sample_football_data.csv");
                                  ("type", JS.str "text/csv");
                                  ("content", text)])].

(** The [catch] block of [handleUseSample]. *)
Definition sampleFailed (error : JS.value) : list Call :=
  [console_error "Sample data error:" error;
   alert (JS.str "Failed to load sample data. Please try again.")].

(** [handleUseSample] after the POST to [/upload] was answered. *)
Definition sampleUploaded (outcome : JS.settled) : list Call :=
  match outcome with
  | JS.fulfilled response =>
      match JS.get response "data" with
      | None => sampleFailed JS.TypeError
      | Some data =>
          match JS.get data "success" with
          | None => sampleFailed JS.TypeError
          | Some success =>
              if JS.truthy success
              then [setUploadData data; setCurrentView analysis]
              else []
          end
      end
  | JS.rejected error => sampleFailed error
  end.

(** [handleUseSample] after its first [await]: [sample] is how fetching
    the text of [/sample.csv] ends, [server] answers the POST to [/upload].
    No setter is called between the later [await]s. *)
Definition sampleSettled (sample : JS.settled)
    (server : JS.value → JS.settled) : list Call :=
  (match sample with
   | JS.fulfilled text =>
       axios_post "/upload" (sampleForm text) ::
       sampleUploaded (server (sampleForm text))
   | JS.rejected error => sampleFailed error
   end ++
   [setIsAnalyzing false])%list.

(** [handleUseSample()]. *)
Definition handleUseSample (sample : JS.settled)
    (server : JS.value → JS.settled) : list Call :=
  setIsAnalyzing true :: sampleSettled sample server.

(** [handleAnalyze] up to its [await]: the calls made at once, and the
    request that is then pending, if one could be built. *)
Definition analyzeStarted (s : State) (selection : JS.value)
    : list Call * option JS.value :=
  match analyzeRequest (uploadData s) selection with
  | None =>
      (([setIsAnalyzing true; setAnalysisSelection selection] ++
        analyzeFailed JS.TypeError ++ [setIsAnalyzing false])%list, None)
  | Some body =>
      ([setIsAnalyzing true; setAnalysisSelection selection;
        axios_post "/analyze" body], Some body)
  end.

(** [handleAnalyze] after its [await]. *)
Definition analyzeSettled (outcome : JS.settled) : list Call :=
  (match outcome with
   | JS.fulfilled response =>
       match analyzeAnswered response with
       | inl calls => calls
       | inr error => analyzeFailed error
       end
   | JS.rejected error => analyzeFailed error
   end ++
   [setIsAnalyzing false])%list.

(** The state in which [handleAnalyze], called in a render whose state is
    [s], waits for the answer: the calls before the [await] were made. *)
Definition waiting (s : State) (selection : JS.value) : State :=
  run (analyzeStarted s selection).1 s.

(** The [filename] prop that [App] passes to [AnalysisResults] in the
    results view, [uploadData.filename]; [None] when reading it throws. *)
Definition filenameProp (s : State) : option JS.value :=
  JS.get (uploadData s) "filename".

(** [null] or [undefined]: the values whose properties cannot be read. *)
Definition nullish (v : JS.value) : Prop := v = JS.null ∨ v = JS.undefined.

(** The answer reports success: it is fulfilled and its [data.success] is
    truthy.  The result is [data]. *)
Definition reported (outcome : JS.settled) : option JS.value :=
  match outcome with
  | JS.fulfilled response =>
      data ← JS.get response "data";
      success ← JS.get data "success";
      if JS.truthy success then Some data else None
  | JS.rejected _ => None
  end.

(** Fetching the sample and posting it both succeed: the [data] of the
    answer. *)
Definition sampleSucceeded (sample : JS.settled)
    (server : JS.value → JS.settled) : option JS.value :=
  match sample with
  | JS.fulfilled text => Dropzone.uploadSucceeded (server (sampleForm text))
  | JS.rejected _ => None
  end.

(** Calls that leave [isAnalyzing], [analysisSelection], [uploadData] and
    [darkMode] alone. *)
Definition quiet (c : Call) : Prop :=
  match c with
  | setIsAnalyzing _ | setAnalysisSelection _ | setUploadData _ => False
  | _ => True
  end.

(** The messages passed to [alert] by a list of calls. *)
Definition alerts (calls : list Call) : list JS.value :=
  omap (λ c, match c with alert m => Some m | _ => None end) calls.

(** The bodies posted by a list of calls. *)
Definition posts (calls : list Call) : list (string * JS.value) :=
  omap (λ c, match c with axios_post p b => Some (p, b) | _ => None end) calls.

(** The selection object built by [handleRunTest]. *)
Definition selectionObject (sel : VariableSelection.t) : JS.value :=
  JS.object [("testId", JS.str (VariableSelection.testId sel));
             ("variables", JS.array (JS.str <$> VariableSelection.variables sel));
             ("groupVariable",
              match VariableSelection.groupVariable sel with
              | Some g => JS.str g
              | None => JS.undefined
              end)].

End Session.

(** ** AnalysisSelection under a changing [columnTypes] prop

    [DataPreview] passes [data.column_types] down, and [App] replaces
    [uploadData] whenever an upload is answered, also while the analysis tab
    is open.  The component then stays mounted and keeps its state; only the
    prop changes. *)

Module Mounted.

Import AnalysisSelection.

(** [reachable registry shown s]: a mounted component is in state [s], and
    [shown] lists the values its [columnTypes] prop has had, the current one
    first.  Events are those of the rendered component, for the current
    prop. *)
Inductive reachable (registry : list StatisticalTest.t)
  : list (gmap string string) → State → Prop :=
| mounted columnTypes : reachable registry [columnTypes] initial
| rerendered columnTypes shown s :
    reachable registry shown s → reachable registry (columnTypes :: shown) s
| handled e columnTypes shown s :
    reachable registry (columnTypes :: shown) s →
    enabled registry columnTypes e s →
    reachable registry (columnTypes :: shown) (handle registry e s).1.

(** A selection handed to [onTestSelect] by a click on "Run Analysis". *)
Definition emitted (registry : list StatisticalTest.t)
    (shown : list (gmap string string)) (sel : VariableSelection.t) : Prop :=
  ∃ s, reachable registry shown s ∧ runButtonShown s = true ∧
       handleRunTest s = Some sel.

End Mounted.

(** ** Concrete inputs of the further properties *)

Module Inputs.

Import AnalysisSelection Props.

(** Shapiro-Wilk selected and one column ticked. *)
Definition shapiroState : State :=
  handleVariableSelect statisticalTests "score"
    (handleTestSelect "shapiro_wilk" initial).

Definition datesOnly : gmap string string := <["day" := "datetime"]> ∅.



(** A data set with one numeric column, shown after [mixedColumns]. *)
Definition ageOnly : gmap string string := <["age" := "numeric"]> ∅.

(** The independent t-test with both columns of [mixedColumns] ticked. *)
Definition twoTicked : State :=
  handleVariableSelect statisticalTests "team" oneColumnState.

Definition twoTickedSelection : VariableSelection.t :=
  {| VariableSelection.testId := "independent_t";
     VariableSelection.variables := ["score"; "team"];
     VariableSelection.groupVariable := None |}.

(** A second selection, and the answers to two analyses. *)
Definition spearmanSelection : JS.value :=
  JS.object [("testId", JS.str "spearman");
             ("variables", JS.array [JS.str "age"; JS.str "score"])].

Definition answer (tag : string) : JS.settled :=
  JS.fulfilled (JS.object [("data",
    JS.object [("success", JS.boolean true);
               ("results", JS.object [("test", JS.str tag)])])]).

End Inputs.

(** * Proofs *)

Import StatisticalTest AnalysisSelection Props.

(** ** AnalysisSelection: reading the registry *)

Section Registry.

Context (registry : list StatisticalTest.t).

Lemma findTest_Some testId test :
  findTest registry testId = Some test → test ∈ registry ∧ id test = testId.
Proof.
  unfold findTest. intros H. apply find_some in H as [Hin Hid].
  split; [by apply list_elem_of_In | by apply bool_decide_eq_true in Hid].
Qed.

Lemma findTest_registered test :
  NoDup (id <$> registry) → test ∈ registry →
  findTest registry (id test) = Some test.
Proof.
  unfold findTest. induction registry as [|t ts IH]; intros Hnd Hin.
  - by apply elem_of_nil in Hin.
  - rewrite fmap_cons in Hnd. apply NoDup_cons in Hnd as [Hfresh Hnd].
    simpl. case_bool_decide as Heq.
    + apply elem_of_cons in Hin as [->|Hin]; [done|].
      exfalso. apply Hfresh. rewrite Heq. by apply list_elem_of_fmap_2.
    + apply elem_of_cons in Hin as [->|Hin]; [done|]. by apply IH.
Qed.

Lemma includes_true l x : includes l x = true ↔ x ∈ l.
Proof. unfold includes. apply bool_decide_eq_true. Qed.

Lemma includes_false l x : includes l x = false ↔ x ∉ l.
Proof. unfold includes. apply bool_decide_eq_false. Qed.

Lemma handleVariableSelect_test v s :
  selectedTest (handleVariableSelect registry v s) = selectedTest s.
Proof.
  unfold handleVariableSelect.
  destruct (findTest registry (selectedTest s)); [|done].
  repeat case_match; done.
Qed.

Lemma handleVariableSelect_toggle test v s :
  findTest registry (selectedTest s) = Some test →
  selectedVariables (handleVariableSelect registry v s)
  = toggle (arity test) v (selectedVariables s).
Proof.
  intros Hfind. unfold handleVariableSelect, toggle, arity. rewrite Hfind.
  repeat case_match; done.
Qed.

Lemma handleVariableSelect_unregistered v s :
  findTest registry (selectedTest s) = None →
  handleVariableSelect registry v s = s.
Proof. intros Hfind. unfold handleVariableSelect. by rewrite Hfind. Qed.

End Registry.

(** *** The list of selected variables under [toggle] *)

Lemma belowLimit_bounded len n :
  n ≠ -1 → belowLimit len n = true → Z.of_nat (S len) ≤ n.
Proof. unfold belowLimit. intros Hn. case_match; lia. Qed.

Lemma toggle_NoDup n v vs : NoDup vs → NoDup (toggle n v vs).
Proof.
  intros Hnd. unfold toggle.
  destruct (n =? 1); [apply NoDup_singleton|].
  destruct (includes vs v) eqn:Hinc; [by apply NoDup_filter|].
  apply includes_false in Hinc.
  destruct (belowLimit (length vs) n); [|done].
  apply NoDup_app. split_and!; [done| |apply NoDup_singleton].
  by intros x Hx ->%list_elem_of_singleton.
Qed.

Lemma toggle_length n v vs :
  n ≠ -1 → 0 ≤ n →
  Z.of_nat (length vs) ≤ n → Z.of_nat (length (toggle n v vs)) ≤ n.
Proof.
  intros Hfixed Hpos Hlen. unfold toggle.
  destruct (n =? 1) eqn:Hone; [simpl; lia|].
  destruct (includes vs v).
  { pose proof (length_filter (λ x, x ≠ v) vs). lia. }
  destruct (belowLimit (length vs) n) eqn:Hlim; [|done].
  rewrite length_app. simpl.
  pose proof (belowLimit_bounded _ _ Hfixed Hlim). lia.
Qed.

Lemma filter_out_absent (v : string) (vs : list string) : v ∉ vs → filter (λ x, x ≠ v) vs = vs.
Proof.
  induction vs as [|x vs IH]; intros Hnin; [done|].
  apply not_elem_of_cons in Hnin as [Hne Hnin].
  rewrite filter_cons_True by done. by rewrite IH.
Qed.

Lemma toggle_twice n v (vs : list string) :
  NoDup vs → n ≠ 1 → (n ≠ -1 → Z.of_nat (length vs) ≤ n) →
  toggle n v (toggle n v vs) ≡ₚ vs.
Proof.
  intros Hnd Hn Hlen. unfold toggle at 2.
  assert ((n =? 1) = false) as Hone by lia. rewrite Hone.
  destruct (includes vs v) eqn:Hinc.
  - (* selected: removed by the first call, appended by the second *)
    apply includes_true in Hinc.
    assert (v ∉ filter (λ x, x ≠ v) vs) as Hgone.
    { by intros [Hv _]%list_elem_of_filter. }
    assert (belowLimit (length (filter (λ x, x ≠ v) vs)) n = true) as Hroom.
    { unfold belowLimit. destruct (n =? -1) eqn:Hunb; [done|].
      pose proof (length_filter_lt (λ x, x ≠ v) vs v Hinc) as Hlt.
      apply Z.ltb_lt.
      assert (length (filter (λ x, x ≠ v) vs) < length vs)%nat
        by (apply Hlt; tauto).
      lia. }
    unfold toggle. rewrite Hone.
    apply includes_false in Hgone. rewrite Hgone, Hroom.
    assert ([v] = filter (λ x, ¬ x ≠ v) vs) as ->; [|apply filter_app_complement].
    clear -Hnd Hinc. induction Hnd as [|x vs Hx Hnd IH].
    { by apply elem_of_nil in Hinc. }
    destruct (decide (x = v)) as [->|Hne].
    + rewrite filter_cons_True by tauto. f_equal.
      clear -Hx. induction vs as [|y vs IH]; [done|].
      apply not_elem_of_cons in Hx as [Hne Hx].
      rewrite filter_cons_False by (intros H; apply H; congruence).
      by apply IH.
    + rewrite filter_cons_False by tauto.
      apply IH. by apply elem_of_cons in Hinc as [?|?].
  - (* not selected *)
    apply includes_false in Hinc.
    destruct (belowLimit (length vs) n) eqn:Hlim.
    + (* appended by the first call, removed by the second *)
      unfold toggle. rewrite Hone.
      assert (includes (vs ++ [v]) v = true) as ->.
      { apply includes_true, elem_of_app. right. by left. }
      rewrite filter_app, filter_out_absent by done.
      rewrite filter_cons_False, filter_nil, app_nil_r by tauto. done.
    + (* the selection is full: both calls leave it alone *)
      unfold toggle. rewrite Hone.
      apply includes_false in Hinc. by rewrite Hinc, Hlim.
Qed.

(** *** The invariant is inductive *)

Section Invariant.

Context (registry : list StatisticalTest.t).
Hypothesis ids_named : ∀ test, test ∈ registry → id test ≠ "".
Hypothesis arities : ∀ test, test ∈ registry → unbounded test ∨ 0 ≤ arity test.

Lemma Inv_initial : Inv registry initial.
Proof.
  split; simpl.
  - by left.
  - apply NoDup_nil_2.
  - intros test Hfind. apply findTest_Some in Hfind as [Hin Hid].
    by apply ids_named in Hin.
Qed.

Lemma Inv_handleTestSelect test s :
  test ∈ registry → Inv registry (handleTestSelect (id test) s).
Proof.
  intros Hin. split; simpl.
  - right. by exists test.
  - apply NoDup_nil_2.
  - intros test' Hfind Hfixed.
    apply findTest_Some in Hfind as [Hin' _].
    destruct (arities test' Hin'); [done | lia].
Qed.

Lemma Inv_handleVariableSelect v s :
  Inv registry s → Inv registry (handleVariableSelect registry v s).
Proof.
  intros HI.
  destruct (findTest registry (selectedTest s)) as [test|] eqn:Hfind.
  2:{ by rewrite handleVariableSelect_unregistered. }
  destruct HI as [Htest Hnd Hbound].
  pose proof (handleVariableSelect_toggle registry test v s Hfind) as Htog.
  split.
  - by rewrite handleVariableSelect_test.
  - rewrite Htog. by apply toggle_NoDup.
  - rewrite handleVariableSelect_test, Htog. intros test' Hfind' Hfixed.
    assert (test' = test) as -> by congruence.
    apply findTest_Some in Hfind as [Hin _].
    destruct (arities test Hin); [done|].
    apply toggle_length; [done..|]. by apply Hbound.
Qed.

Lemma Inv_afterPicks test picks s :
  test ∈ registry → Inv registry (afterPicks registry (id test) picks s).
Proof.
  intros Hin. unfold afterPicks.
  generalize (Inv_handleTestSelect test s Hin).
  generalize (handleTestSelect (id test) s) as s0.
  induction picks as [|v picks IH]; intros s0 Hs0; simpl; [done|].
  apply IH. by apply Inv_handleVariableSelect.
Qed.

Lemma afterPicks_test testId picks s :
  selectedTest (afterPicks registry testId picks s) = testId.
Proof.
  unfold afterPicks.
  change testId with (selectedTest (handleTestSelect testId s)) at 2.
  generalize (handleTestSelect testId s) as s0.
  induction picks as [|v picks IH]; intros s0; simpl; [done|].
  rewrite IH. apply handleVariableSelect_test.
Qed.

Lemma availableTests_registered columnTypes test :
  test ∈ availableTests registry columnTypes → test ∈ registry.
Proof.
  unfold availableTests, getAvailableTests.
  intros H. by apply list_elem_of_filter in H as [_ H].
Qed.

Lemma Inv_reachable columnTypes s :
  reachable registry columnTypes s → Inv registry s.
Proof.
  induction 1 as [|e s Hs IH Hen].
  - by apply Inv_initial.
  - destruct e as [test|column|]; simpl in *.
    + apply Inv_handleTestSelect. by eapply availableTests_registered.
    + by apply Inv_handleVariableSelect.
    + done.
Qed.

End Invariant.

(** *** Facts about the registry of the source *)

Lemma statisticalTests_NoDup : NoDup (id <$> statisticalTests).
Proof. apply (bool_decide_unpack _). vm_compute. exact I. Qed.

Lemma statisticalTests_named test : test ∈ statisticalTests → id test ≠ "".
Proof.
  intros Hin Hid.
  assert ("" ∉ id <$> statisticalTests) as Hnot.
  { apply (bool_decide_unpack _). vm_compute. exact I. }
  apply Hnot. rewrite <- Hid. by apply list_elem_of_fmap_2.
Qed.

Lemma statisticalTests_arities :
  Forall (λ test, arity test ∈ [-1; 1; 2]) statisticalTests.
Proof. apply (bool_decide_unpack _). vm_compute. exact I. Qed.

Lemma statisticalTests_arity test :
  test ∈ statisticalTests → unbounded test ∨ 0 ≤ arity test.
Proof.
  intros Hin.
  pose proof (proj1 (Forall_forall _ _) statisticalTests_arities test Hin) as H.
  unfold unbounded. set_unfold. lia.
Qed.

Lemma reachable_Inv columnTypes s :
  reachable statisticalTests columnTypes s → Inv statisticalTests s.
Proof.
  apply Inv_reachable;
    [apply statisticalTests_named | apply statisticalTests_arity].
Qed.

(** *** The handlers on concrete inputs *)

Example available_mixedColumns :
  id <$> getAvailableTests statisticalTests mixedColumns = id <$> statisticalTests.
Proof. vm_compute. reflexivity. Qed.

Example available_numericOnly :
  id <$> getAvailableTests statisticalTests numericOnly =
  ["paired_t"; "pearson"; "spearman"; "linear_regression"; "shapiro_wilk"].
Proof. vm_compute. reflexivity. Qed.

Example available_no_columns : getAvailableTests statisticalTests ∅ = [].
Proof. vm_compute. reflexivity. Qed.

Example run_oneColumnState : handleRunTest oneColumnState = Some oneColumnSelection.
Proof. vm_compute. reflexivity. Qed.

Example run_initial : handleRunTest initial = None.
Proof. reflexivity. Qed.

Example shapiro_wilk_replaces :
  selectedVariables
    (afterPicks statisticalTests "shapiro_wilk" ["score"; "age"] initial)
  = ["age"].
Proof. vm_compute. reflexivity. Qed.

Example pearson_third_ignored :
  selectedVariables
    (afterPicks statisticalTests "pearson" ["score"; "age"; "height"] initial)
  = ["score"; "age"].
Proof. vm_compute. reflexivity. Qed.

Example pearson_untick :
  selectedVariables
    (afterPicks statisticalTests "pearson" ["score"; "age"; "score"] initial)
  = ["age"].
Proof. vm_compute. reflexivity. Qed.

Example regression_one_variable :
  handleRunTest (afterPicks statisticalTests "linear_regression" ["score"] initial)
  = Some {| VariableSelection.testId := "linear_regression";
            VariableSelection.variables := ["score"];
            VariableSelection.groupVariable := None |}.
Proof. vm_compute. reflexivity. Qed.

(** *** Available tests *)

Section Available.

Context (registry : list StatisticalTest.t) (columnTypes : gmap string string).

Lemma columns_of_type ty :
  (0 < length ((filter (λ e : string * string, e.2 = ty)
                  (entries columnTypes)).*1))%nat
  ↔ hasColumnOfType columnTypes ty.
Proof.
  rewrite length_fmap. unfold entries, hasColumnOfType. split.
  - intros Hlen.
    destruct (filter _ _) as [|[column ty'] rest] eqn:Hf; [simpl in Hlen; lia|].
    assert ((column, ty') ∈ filter (λ e : string * string, e.2 = ty)
              (map_to_list columnTypes)) as Hin by (rewrite Hf; left).
    apply list_elem_of_filter in Hin as [Hty Hin]. simpl in Hty. subst ty'.
    exists column. by apply elem_of_map_to_list.
  - intros [column Hcol]. apply elem_of_map_to_list in Hcol.
    assert ((column, ty) ∈ filter (λ e : string * string, e.2 = ty)
              (map_to_list columnTypes)) as Hin by by apply list_elem_of_filter.
    destruct (filter _ _); [by apply elem_of_nil in Hin | simpl; lia].
Qed.

Lemma keepTest_spec test :
  keepTest columnTypes test = true ↔
  requirementMet columnTypes "numeric" test ∧
  requirementMet columnTypes "categorical" test.
Proof.
  unfold keepTest, requirementMet, numericColumns, categoricalColumns.
  rewrite <- !columns_of_type.
  destruct (includes (variableTypes (requirements test)) "numeric") eqn:Hn;
    destruct (includes (variableTypes (requirements test)) "categorical") eqn:Hc;
    [apply includes_true in Hn | apply includes_true in Hn
    | apply includes_false in Hn | apply includes_false in Hn];
    [apply includes_true in Hc | apply includes_false in Hc
    | apply includes_true in Hc | apply includes_false in Hc];
    repeat case_bool_decide; simpl; split; try done; try tauto.
Qed.

End Available.

(** ** AnalysisSelection: the claims *)

Lemma oneColumnState_reachable :
  reachable statisticalTests mixedColumns oneColumnState.
Proof.
  refine (reachable_step statisticalTests mixedColumns (ToggleColumn "score")
            (handleTestSelect "independent_t" initial) _ _).
  - refine (reachable_step statisticalTests mixedColumns
              (ClickTest (nthTest 0)) initial _ _); [constructor|].
    simpl. apply (bool_decide_unpack _). vm_compute. exact I.
  - simpl. split_and!.
    + discriminate.
    + apply (bool_decide_unpack _). vm_compute. exact I.
    + vm_compute. reflexivity.
Qed.

Lemma oneColumnSelection_emitted :
  emitted statisticalTests mixedColumns oneColumnSelection.
Proof.
  exists oneColumnState. split_and!.
  - apply oneColumnState_reachable.
  - vm_compute. reflexivity.
  - vm_compute. reflexivity.
Qed.

(** C1, as stated, fails: with the independent t-test (arity 2) selected
    and a single column ticked, "Run Analysis" hands a selection of one
    variable to [onTestSelect]. *)
Lemma emitted_count_not_arity :
  emitted statisticalTests mixedColumns oneColumnSelection ∧
  ¬ countMatchesArity statisticalTests oneColumnSelection.
Proof.
  split; [apply oneColumnSelection_emitted|].
  intros H. specialize (H (nthTest 0) eq_refl).
  vm_compute in H. discriminate.
Qed.

Lemma emitted_within_arity columnTypes sel :
  emitted statisticalTests columnTypes sel →
  countWithinArity statisticalTests sel.
Proof.
  intros (s & Hreach & _ & Hrun).
  apply reachable_Inv in Hreach as [Htest _ Hbound].
  unfold handleRunTest in Hrun.
  destruct (bool_decide (selectedTest s = "")) eqn:Hsel; [done|].
  apply bool_decide_eq_false in Hsel.
  destruct (length (selectedVariables s) =? 0)%nat eqn:Hlen; [done|].
  apply Nat.eqb_neq in Hlen.
  simpl in Hrun. injection Hrun as <-.
  destruct Htest as [Hempty|(test & Hin & Hid)]; [done|].
  exists test. simpl. split_and!; [done|done|lia|].
  intros Hfixed. apply Hbound; [|done].
  rewrite <- Hid. apply findTest_registered; [apply statisticalTests_NoDup|done].
Qed.

(** C1, amended: every selection handed to [onTestSelect] names a registered
    test, has at least one variable, and has no more variables than the
    arity of the test when that arity is a fixed integer. *)
Theorem emitted_count_within_arity columnTypes sel :
  emitted statisticalTests columnTypes sel →
  countWithinArity statisticalTests sel.
Proof. apply emitted_within_arity. Qed.

Lemma emitted_count_within_arity_witness :
  emitted statisticalTests mixedColumns oneColumnSelection ∧
  countWithinArity statisticalTests oneColumnSelection.
Proof.
  split; [apply oneColumnSelection_emitted|].
  apply (emitted_count_within_arity mixedColumns).
  apply oneColumnSelection_emitted.
Defined.

(** C5: for a registered test of fixed arity [n], after [handleTestSelect]
    and any sequence of [handleVariableSelect] calls at most [n] variables
    are selected; for arity 1 a further call leaves exactly the variable
    just chosen. *)
Theorem selection_bounded_by_fixed_arity test picks s :
  test ∈ statisticalTests → ¬ unbounded test →
  Z.of_nat (length (selectedVariables
                      (afterPicks statisticalTests (id test) picks s)))
    ≤ arity test ∧
  (arity test = 1 → ∀ v,
     selectedVariables
       (handleVariableSelect statisticalTests v
          (afterPicks statisticalTests (id test) picks s)) = [v]).
Proof.
  intros Hin Hfixed.
  assert (findTest statisticalTests
            (selectedTest (afterPicks statisticalTests (id test) picks s))
          = Some test) as Hfind.
  { rewrite afterPicks_test.
    by apply findTest_registered; [apply statisticalTests_NoDup|]. }
  split.
  - eapply inv_bound; [|done..].
    apply Inv_afterPicks; [apply statisticalTests_arity|done].
  - intros Hone v.
    rewrite (handleVariableSelect_toggle _ test) by done.
    unfold toggle. by rewrite Hone.
Qed.

Lemma selection_bounded_by_fixed_arity_witness :
  nthTest 8 ∈ statisticalTests ∧ ¬ unbounded (nthTest 8) ∧
  Z.of_nat (length (selectedVariables
     (afterPicks statisticalTests "shapiro_wilk" ["score"; "age"; "score"]
                 initial))) ≤ 1.
Proof.
  assert (nthTest 8 ∈ statisticalTests) as Hin
    by (apply (bool_decide_unpack _); vm_compute; exact I).
  assert (¬ unbounded (nthTest 8)) as Hfixed by (vm_compute; discriminate).
  split_and!; [done..|].
  exact (proj1 (selection_bounded_by_fixed_arity (nthTest 8)
                  ["score"; "age"; "score"] initial Hin Hfixed)).
Defined.

(** C9: in a reachable state whose test takes two or more variables (fixed
    arity at least 2, or unbounded), two calls of [handleVariableSelect]
    with the same variable leave the same variables selected: the lists are
    permutations of each other, so they have the same elements. *)
Theorem toggle_twice_same_variables columnTypes test v s :
  reachable statisticalTests columnTypes s →
  test ∈ statisticalTests → selectedTest s = id test →
  unbounded test ∨ 2 ≤ arity test →
  selectedVariables
    (handleVariableSelect statisticalTests v
       (handleVariableSelect statisticalTests v s)) ≡ₚ selectedVariables s ∧
  ∀ x, x ∈ selectedVariables
             (handleVariableSelect statisticalTests v
                (handleVariableSelect statisticalTests v s))
       ↔ x ∈ selectedVariables s.
Proof.
  intros Hreach Hin Hsel Har.
  assert (selectedVariables
    (handleVariableSelect statisticalTests v
       (handleVariableSelect statisticalTests v s)) ≡ₚ selectedVariables s)
    as Hperm.
  { apply reachable_Inv in Hreach as [_ Hnd Hbound].
    assert (findTest statisticalTests (selectedTest s) = Some test) as Hfind.
    { rewrite Hsel. by apply findTest_registered; [apply statisticalTests_NoDup|]. }
    rewrite (handleVariableSelect_toggle _ test)
      by by rewrite handleVariableSelect_test.
    rewrite (handleVariableSelect_toggle _ test) by done.
    apply toggle_twice; [done| |].
    - unfold unbounded in Har. lia.
    - intros Hfixed. by apply Hbound. }
  split; [done|]. intros x. by rewrite Hperm.
Qed.

Lemma toggle_twice_same_variables_witness :
  reachable statisticalTests mixedColumns oneColumnState ∧
  nthTest 0 ∈ statisticalTests ∧
  selectedTest oneColumnState = id (nthTest 0) ∧
  (unbounded (nthTest 0) ∨ 2 ≤ arity (nthTest 0)) ∧
  selectedVariables
    (handleVariableSelect statisticalTests "score"
       (handleVariableSelect statisticalTests "score" oneColumnState))
  ≡ₚ selectedVariables oneColumnState.
Proof.
  assert (nthTest 0 ∈ statisticalTests) as Hin
    by (apply (bool_decide_unpack _); vm_compute; exact I).
  assert (unbounded (nthTest 0) ∨ 2 ≤ arity (nthTest 0)) as Har
    by (right; vm_compute; discriminate).
  split_and!; [apply oneColumnState_reachable|done|reflexivity|done|].
  exact (proj1 (toggle_twice_same_variables mixedColumns (nthTest 0) "score"
                  oneColumnState oneColumnState_reachable Hin eq_refl Har)).
Defined.

(** C10: in every reachable state [selectedTest] is the empty string or the
    id of a registered test; every selection handed to [onTestSelect]
    carries the id of a registered test; and [handleVariableSelect] changes
    nothing when the current test id is not found in the registry. *)
Theorem selectedTest_registered columnTypes :
  (∀ s, reachable statisticalTests columnTypes s →
        selectedTest s = "" ∨
        ∃ test, test ∈ statisticalTests ∧ id test = selectedTest s) ∧
  (∀ sel, emitted statisticalTests columnTypes sel →
        ∃ test, test ∈ statisticalTests ∧
                id test = VariableSelection.testId sel) ∧
  (∀ s v, findTest statisticalTests (selectedTest s) = None →
        handleVariableSelect statisticalTests v s = s).
Proof.
  split_and!.
  - intros s Hreach. by apply reachable_Inv in Hreach as [Htest _ _].
  - intros sel Hem.
    destruct (emitted_within_arity _ _ Hem) as (test & Hin & Hid & _).
    by exists test.
  - intros s v. apply handleVariableSelect_unregistered.
Qed.

Lemma selectedTest_registered_witness :
  (selectedTest oneColumnState = "" ∨
   ∃ test, test ∈ statisticalTests ∧ id test = selectedTest oneColumnState) ∧
  (∃ test, test ∈ statisticalTests ∧
           id test = VariableSelection.testId oneColumnSelection) ∧
  handleVariableSelect statisticalTests "score" initial = initial.
Proof.
  destruct (selectedTest_registered mixedColumns) as (Hstate & Hsel & Hnoop).
  split_and!.
  - apply Hstate, oneColumnState_reachable.
  - apply Hsel, oneColumnSelection_emitted.
  - apply Hnoop. reflexivity.
Defined.

Lemma dispatch_cell columnTypes op m :
  statisticalTests_cell (dispatch columnTypes op m) = statisticalTests_cell m.
Proof. by destruct op. Qed.

Lemma execute_cell columnTypes ops m :
  statisticalTests_cell (execute columnTypes ops m) = statisticalTests_cell m.
Proof.
  unfold execute. revert m.
  induction ops as [|op ops IH]; intros m; simpl; [done|].
  by rewrite IH, dispatch_cell.
Qed.

(** C6: no operation of the module changes the [statisticalTests] array;
    the array has ten entries with pairwise distinct ids, and the category
    of every entry is one of comparison, correlation, regression,
    nonparametric, normality. *)
Theorem statisticalTests_constant :
  (∀ columnTypes ops,
     statisticalTests_cell (execute columnTypes ops load) = statisticalTests) ∧
  length statisticalTests = 10%nat ∧
  NoDup (id <$> statisticalTests) ∧
  Forall (λ test, category test ∈ categories) statisticalTests.
Proof.
  split_and!.
  - intros columnTypes ops. by rewrite execute_cell.
  - reflexivity.
  - apply statisticalTests_NoDup.
  - apply (bool_decide_unpack _). vm_compute. exact I.
Qed.

(** C7: [getAvailableTests] keeps exactly the registry tests whose numeric
    and categorical requirements are met by some column, in the order of
    the registry. *)
Theorem getAvailableTests_exact columnTypes :
  (∀ test, test ∈ getAvailableTests statisticalTests columnTypes ↔
           test ∈ statisticalTests ∧
           requirementMet columnTypes "numeric" test ∧
           requirementMet columnTypes "categorical" test) ∧
  sublist (getAvailableTests statisticalTests columnTypes) statisticalTests.
Proof.
  unfold getAvailableTests. split.
  - intros test. rewrite list_elem_of_filter, Is_true_true, keepTest_spec. tauto.
  - apply sublist_filter.
Qed.

(** ** AnalysisResults: the claims *)

Import AnalysisResults.

Example render_pearson :
  renderResults (JS.str "pearson_correlation") = CorrelationPanel.
Proof. reflexivity. Qed.

Example render_test_id :
  renderResults (JS.str "pearson") = UnknownTestType.
Proof. reflexivity. Qed.

Example render_missing_tag : renderResults JS.undefined = UnknownTestType.
Proof. reflexivity. Qed.

Lemma renderResults_caseLabels tag :
  renderResults (JS.str tag) ≠ UnknownTestType → tag ∈ caseLabels.
Proof.
  unfold renderResults, JS.is_str, caseLabels.
  repeat (case_bool_decide; [subst; set_solver|]). done.
Qed.


(** C2: whatever result tags the server gives to the ten registered tests,
    as long as different tests have different tags, [renderResults] sends
    the result of some registered test to the "Unknown test type" default:
    the switch has eight labels. *)
Theorem registered_test_unrendered (tag : string → string) :
  distinctTags statisticalTests tag →
  ∃ test, test ∈ statisticalTests ∧
          renderResults (JS.str (tag (id test))) = UnknownTestType.
Proof.
  intros Hdistinct.
  destruct (decide (Exists (λ test, renderResults (JS.str (tag (id test)))
                                    = UnknownTestType) statisticalTests))
    as [Hex|Hall].
  { apply Exists_exists in Hex as (test & Hin & Hunk). by exists test. }
  exfalso. apply not_Exists_Forall in Hall; [|apply _].
  assert ((λ test, tag (id test)) <$> statisticalTests ⊆+ caseLabels) as Hsub.
  { apply NoDup_submseteq; [done|].
    intros x (test & -> & Hin)%list_elem_of_fmap.
    apply renderResults_caseLabels.
    by apply (proj1 (Forall_forall _ _) Hall). }
  apply submseteq_length in Hsub. rewrite length_fmap in Hsub.
  vm_compute in Hsub. lia.
Qed.

Lemma registered_test_unrendered_witness :
  distinctTags statisticalTests tagOf ∧
  ∃ test, test ∈ statisticalTests ∧
          renderResults (JS.str (tagOf (id test))) = UnknownTestType.
Proof.
  assert (distinctTags statisticalTests tagOf) as Hd
    by (apply (bool_decide_unpack _); vm_compute; exact I).
  split; [done|]. by apply registered_test_unrendered.
Defined.

(** The two registered tests without a label, under their own ids and under
    the tags of [tagOf]. *)
Lemma mann_whitney_unrendered :
  nthTest 7 ∈ statisticalTests ∧ id (nthTest 7) = "mann_whitney" ∧
  (id (nthTest 7) ∉ caseLabels) ∧
  renderResults (JS.str (tagOf (id (nthTest 7)))) = UnknownTestType ∧
  nthTest 6 ∈ statisticalTests ∧ id (nthTest 6) = "linear_regression" ∧
  (id (nthTest 6) ∉ caseLabels) ∧
  renderResults (JS.str (tagOf (id (nthTest 6)))) = UnknownTestType.
Proof.
  split_and!; try reflexivity;
    apply (bool_decide_unpack _); vm_compute; exact I.
Qed.

(** ** App: the claims *)

Section Analyze.

Import App.

Example analyze_answered :
  run (handleAnalyze answeringServer analysisState pearsonSelection) analysisState
  = {| darkMode := false; uploadData := uploaded; currentView := results;
       analysisResults := JS.object [("test", JS.str "pearson_correlation")];
       isAnalyzing := false; analysisSelection := pearsonSelection |}.
Proof. reflexivity. Qed.

Example analyze_refused :
  handleAnalyze failingServer analysisState pearsonSelection
  = [setIsAnalyzing true; setAnalysisSelection pearsonSelection;
     axios_post "/analyze"
       (JS.object [("test_id", JS.str "pearson");
                   ("variables", JS.array [JS.str "score"; JS.str "age"]);
                   ("group_variable", JS.undefined);
                   ("filename", JS.str "data.csv")]);
     setIsAnalyzing false].
Proof. reflexivity. Qed.

Example analyze_without_upload :
  handleAnalyze answeringServer initial pearsonSelection
  = [setIsAnalyzing true; setAnalysisSelection pearsonSelection;
     console_error "Analysis error:" JS.TypeError;
     alert (JS.str "Failed to run analysis");
     setIsAnalyzing false].
Proof. reflexivity. Qed.

Lemma apply_keeps c s :
  storesResultOrView c = false →
  analysisResults (apply c s) = analysisResults s ∧
  currentView (apply c s) = currentView s.
Proof. by destruct c. Qed.

Lemma run_keeps calls s :
  Forall (λ c, storesResultOrView c = false) calls →
  analysisResults (run calls s) = analysisResults s ∧
  currentView (run calls s) = currentView s.
Proof.
  unfold run. intros Hall. revert s.
  induction Hall as [|c calls Hc _ IH]; intros s; simpl; [done|].
  destruct (IH (apply c s)) as [-> ->]. by apply apply_keeps.
Qed.

Lemma analyzeFailed_keeps error :
  Forall (λ c, storesResultOrView c = false) (analyzeFailed error).
Proof.
  unfold analyzeFailed. destruct (JS.get error "response"); repeat constructor.
Qed.

(** The calls made by [handleAnalyze] when the answer reports success. *)
Lemma handleAnalyze_success server s selection data :
  App.reportsSuccess server s selection = Some data →
  ∃ body, handleAnalyze server s selection =
    [setIsAnalyzing true; setAnalysisSelection selection;
     axios_post "/analyze" body;
     setAnalysisResults (JS.get_opt data "results"); setCurrentView results;
     setIsAnalyzing false].
Proof.
  unfold App.reportsSuccess, handleAnalyze, analyzeAnswered.
  destruct (analyzeRequest (uploadData s) selection) as [body|]; [simpl|done].
  destruct (server body) as [response|error]; [|done].
  destruct (JS.get response "data") as [data'|]; [simpl|done].
  destruct (JS.get data' "success") as [success|]; [simpl|done].
  destruct (JS.truthy success); [|done].
  intros [= ->]. by exists body.
Qed.

(** The calls made by [handleAnalyze] in every other case. *)
Lemma handleAnalyze_failure server s selection :
  App.reportsSuccess server s selection = None →
  Forall (λ c, storesResultOrView c = false) (handleAnalyze server s selection).
Proof.
  unfold App.reportsSuccess, handleAnalyze, analyzeAnswered.
  intros Hrep. repeat constructor.
  apply Forall_app. split; [|repeat constructor].
  destruct (analyzeRequest (uploadData s) selection) as [body|];
    [simpl in *|apply analyzeFailed_keeps].
  constructor; [done|].
  destruct (server body) as [response|error]; [|apply analyzeFailed_keeps].
  destruct (JS.get response "data") as [data|];
    [simpl in *|apply analyzeFailed_keeps].
  destruct (JS.get data "success") as [success|];
    [simpl in *|apply analyzeFailed_keeps].
  destruct (JS.truthy success); [done|constructor].
Qed.

End Analyze.

(** C3: when the request to [/analyze] fails or its answer does not report
    success, the calls made by [handleAnalyze] leave [analysisResults] and
    [currentView] as they are; and a call of [setAnalysisResults] only
    happens with the [results] of an answer that reports success. *)
Theorem handleAnalyze_failure_keeps_results server s selection :
  (App.reportsSuccess server s selection = None →
   ∀ s', App.analysisResults (App.run (App.handleAnalyze server s selection) s')
           = App.analysisResults s' ∧
         App.currentView (App.run (App.handleAnalyze server s selection) s')
           = App.currentView s') ∧
  (∀ r, App.setAnalysisResults r ∈ App.handleAnalyze server s selection →
        ∃ data, App.reportsSuccess server s selection = Some data ∧
                r = JS.get_opt data "results").
Proof.
  split.
  - intros Hrep s'. by apply run_keeps, handleAnalyze_failure.
  - intros r Hin.
    destruct (App.reportsSuccess server s selection) as [data|] eqn:Hrep.
    + exists data. split; [done|].
      destruct (handleAnalyze_success _ _ _ _ Hrep) as [body Hcalls].
      rewrite Hcalls in Hin. set_unfold.
      destruct Hin as [?|[?|[?|[?|[?|[?|[]]]]]]]; by simplify_eq.
    + pose proof (handleAnalyze_failure _ _ _ Hrep) as Hall.
      by apply (proj1 (Forall_forall _ _) Hall) in Hin.
Qed.

Lemma handleAnalyze_failure_keeps_results_witness :
  App.reportsSuccess failingServer analysisState pearsonSelection = None ∧
  App.analysisResults
    (App.run (App.handleAnalyze failingServer analysisState pearsonSelection)
             analysisState) = JS.null ∧
  App.currentView
    (App.run (App.handleAnalyze failingServer analysisState pearsonSelection)
             analysisState) = App.analysis.
Proof.
  split; [reflexivity|].
  exact (proj1 (handleAnalyze_failure_keeps_results failingServer analysisState
                  pearsonSelection) eq_refl analysisState).
Defined.

(** ** FileUpload: the claims *)

Section Upload.

Import FileUpload.

Example extension_upper : dotExtension bigCsv = ".csv".
Proof. reflexivity. Qed.

Example extension_none :
  dotExtension {| name := "README"; type := ""; size := 1 |} = ".readme".
Proof. reflexivity. Qed.

Example split_trailing_dot : split_dot "" "a.b." = ["a"; "b"; ""].
Proof. reflexivity. Qed.

Example process_bigCsv :
  processFile okServer bigCsv =
  [setUploadError JS.null;
   setUploadError (JS.str
     "File size must be less than 10MB. For larger files, please use sample mode.")].
Proof. reflexivity. Qed.

Example process_fullCsv :
  processFile okServer fullCsv =
  [setUploadError JS.null; setSelectedFile fullCsv;
   setIsUploading true; setUploadError JS.null; axios_post "/upload" fullCsv;
   onFileUpload (JS.object [("success", JS.boolean true)]);
   setIsUploading false].
Proof. reflexivity. Qed.

Lemma processFile_rejected_type server file :
  acceptedType file = false →
  processFile server file =
    [setUploadError JS.null;
     setUploadError (JS.str "Please upload a CSV or XLSX file only.")].
Proof.
  unfold acceptedType, processFile. intros H.
  apply orb_false_iff in H as [-> ->]. done.
Qed.

Lemma processFile_too_large server file :
  acceptedType file = true → maxSize < size file →
  processFile server file =
    [setUploadError JS.null;
     setUploadError (JS.str
       "File size must be less than 10MB. For larger files, please use sample mode.")].
Proof.
  unfold acceptedType, processFile. intros H Hsize.
  apply orb_true_iff in H.
  assert (negb (includes acceptedTypes (dotExtension file)) &&
          negb (includes acceptedTypes (type file)) = false) as ->.
  { destruct H as [-> | ->]; [done|]. apply andb_false_r. }
  apply Z.ltb_lt in Hsize. by rewrite Hsize.
Qed.

Lemma processFile_uploads server file :
  acceptedType file = true → size file ≤ maxSize →
  processFile server file =
    ([setUploadError JS.null; setSelectedFile file]
       ++ uploadFile server file)%list.
Proof.
  unfold acceptedType, processFile. intros H Hsize.
  apply orb_true_iff in H.
  assert (negb (includes acceptedTypes (dotExtension file)) &&
          negb (includes acceptedTypes (type file)) = false) as ->.
  { destruct H as [-> | ->]; [done|]. apply andb_false_r. }
  assert ((maxSize <? size file) = false) as -> by lia. done.
Qed.

Lemma uploadFile_requests server file :
  axios_post "/upload" file ∈ uploadFile server file.
Proof. unfold uploadFile. set_solver. Qed.

End Upload.

(** C4: a file larger than 10*1024*1024 bytes makes [processFile] set an
    upload error and stop.  Its calls are exactly the reset of the error and
    one [setUploadError] with a non-empty message: the size message when the
    type of the file is accepted, the type message when it is not (the type
    check comes first).  No file is selected, [uploadFile] is not called and
    no upload request is made.  A file of an accepted type of at most that
    size is stored and handed to [uploadFile], which posts it. *)
Theorem processFile_size_limit server file :
  (10 * 1024 * 1024 < FileUpload.size file →
   ∃ message,
     message =
       (if FileUpload.acceptedType file
        then "File size must be less than 10MB. For larger files, please use sample mode."
        else "Please upload a CSV or XLSX file only.") ∧
     JS.truthy (JS.str message) = true ∧
     FileUpload.processFile server file =
       [FileUpload.setUploadError JS.null;
        FileUpload.setUploadError (JS.str message)] ∧
     Forall (λ c, ¬ FileUpload.isUploadRequest c)
            (FileUpload.processFile server file)) ∧
  (FileUpload.acceptedType file = true →
   FileUpload.size file ≤ 10 * 1024 * 1024 →
   FileUpload.processFile server file =
     ([FileUpload.setUploadError JS.null; FileUpload.setSelectedFile file]
        ++ FileUpload.uploadFile server file)%list ∧
   FileUpload.axios_post "/upload" file ∈ FileUpload.processFile server file).
Proof.
  split.
  - intros Hsize. eexists. split; [reflexivity|].
    assert (FileUpload.processFile server file =
      [FileUpload.setUploadError JS.null;
       FileUpload.setUploadError (JS.str
         (if FileUpload.acceptedType file
          then "File size must be less than 10MB. For larger files, please use sample mode."
          else "Please upload a CSV or XLSX file only."))]) as Hcalls.
    { destruct (FileUpload.acceptedType file) eqn:Hty.
      - by apply processFile_too_large.
      - by apply processFile_rejected_type. }
    split_and!; [by destruct (FileUpload.acceptedType file)|done|].
    rewrite Hcalls. repeat constructor; simpl; tauto.
  - intros Hty Hsize.
    rewrite processFile_uploads by done. split; [done|].
    apply elem_of_app. right. apply uploadFile_requests.
Qed.

Lemma processFile_size_limit_witness :
  (10 * 1024 * 1024 < FileUpload.size bigCsv ∧
   ∃ message,
     message =
       (if FileUpload.acceptedType bigCsv
        then "File size must be less than 10MB. For larger files, please use sample mode."
        else "Please upload a CSV or XLSX file only.") ∧
     JS.truthy (JS.str message) = true ∧
     FileUpload.processFile okServer bigCsv =
       [FileUpload.setUploadError JS.null;
        FileUpload.setUploadError (JS.str message)] ∧
     Forall (λ c, ¬ FileUpload.isUploadRequest c)
            (FileUpload.processFile okServer bigCsv)) ∧
  (FileUpload.acceptedType fullCsv = true ∧
   FileUpload.size fullCsv ≤ 10 * 1024 * 1024 ∧
   FileUpload.axios_post "/upload" fullCsv
     ∈ FileUpload.processFile okServer fullCsv).
Proof.
  assert (10 * 1024 * 1024 < FileUpload.size bigCsv) as Hbig by (vm_compute; done).
  assert (FileUpload.size fullCsv ≤ 10 * 1024 * 1024) as Hfull by (vm_compute; discriminate).
  split; [split; [exact Hbig|]|split; [reflexivity|split; [exact Hfull|]]].
  - exact (proj1 (processFile_size_limit okServer bigCsv) Hbig).
  - exact (proj2 (proj2 (processFile_size_limit okServer fullCsv) eq_refl Hfull)).
Defined.

(** * Further properties *)

(** ** AnalysisSelection *)

Section Selection.

Context (registry : list StatisticalTest.t) (columnTypes : gmap string string).

Lemma handleVariableSelect_groupVariable v s :
  groupVariable (handleVariableSelect registry v s) = groupVariable s.
Proof.
  unfold handleVariableSelect.
  destruct (findTest registry (selectedTest s)); [|done].
  repeat case_match; done.
Qed.

Lemma reachable_groupVariable s :
  reachable registry columnTypes s → groupVariable s = "".
Proof.
  induction 1 as [|e s Hs IH Hen]; [done|].
  destruct e; simpl; [done| |done].
  by rewrite handleVariableSelect_groupVariable.
Qed.

Lemma allColumns_keys column :
  column ∈ allColumns columnTypes ↔ is_Some (columnTypes !! column).
Proof.
  unfold allColumns, entries. rewrite list_elem_of_fmap. split.
  - intros ([k v] & -> & Hin). apply elem_of_map_to_list in Hin. by exists v.
  - intros [v Hv]. exists (column, v). split; [done|].
    by apply elem_of_map_to_list.
Qed.

Lemma toggle_elements n v vs x : x ∈ toggle n v vs → x = v ∨ x ∈ vs.
Proof.
  unfold toggle.
  destruct (n =? 1); [intros ->%list_elem_of_singleton; by left|].
  destruct (includes vs v); [intros [_ H]%list_elem_of_filter; by right|].
  destruct (belowLimit (length vs) n); [|by right].
  intros [H| ->%list_elem_of_singleton]%elem_of_app; [by right|by left].
Qed.

Lemma handleRunTest_Some s sel :
  handleRunTest s = Some sel →
  selectedTest s ≠ "" ∧ selectedVariables s ≠ [] ∧
  VariableSelection.testId sel = selectedTest s ∧
  VariableSelection.variables sel = selectedVariables s ∧
  VariableSelection.groupVariable sel =
    (if bool_decide (groupVariable s = "") then None else Some (groupVariable s)).
Proof.
  unfold handleRunTest.
  destruct (bool_decide (selectedTest s = "")) eqn:Hsel; [done|].
  apply bool_decide_eq_false in Hsel.
  destruct (selectedVariables s) as [|v vs] eqn:Hvs; [done|].
  simpl. intros [= <-]. by simpl.
Qed.

End Selection.

(** X1: the component never stores a group variable: [groupVariable] is
    the empty string in every reachable state, so every selection handed to
    [onTestSelect] has [groupVariable] undefined, also for the tests that
    compare groups. *)
Theorem groupVariable_never_set columnTypes :
  (∀ s, reachable statisticalTests columnTypes s → groupVariable s = "") ∧
  (∀ sel, emitted statisticalTests columnTypes sel →
          VariableSelection.groupVariable sel = None).
Proof.
  split; [apply reachable_groupVariable|].
  intros sel (s & Hreach & _ & Hrun).
  apply handleRunTest_Some in Hrun as (_ & _ & _ & _ & ->).
  by rewrite (reachable_groupVariable _ _ _ Hreach).
Qed.

(** *** When the data set is replaced under the component *)

Section Shown.

Context (registry : list StatisticalTest.t).
Hypothesis ids_named : ∀ test, test ∈ registry → id test ≠ "".
Hypothesis arities : ∀ test, test ∈ registry → unbounded test ∨ 0 ≤ arity test.

(** A component whose prop never changes is a special case. *)
Lemma reachable_mounted columnTypes s :
  reachable registry columnTypes s → Mounted.reachable registry [columnTypes] s.
Proof.
  induction 1 as [|e s Hs IH Hen]; [constructor|].
  by apply Mounted.handled.
Qed.

Lemma mounted_Inv shown s : Mounted.reachable registry shown s → Inv registry s.
Proof.
  induction 1 as [columnTypes|columnTypes shown s Hs IH
                 |e columnTypes shown s Hs IH Hen].
  - by apply Inv_initial.
  - done.
  - destruct e as [test|column|]; simpl in *.
    + apply Inv_handleTestSelect; [done|]. by eapply availableTests_registered.
    + by apply Inv_handleVariableSelect.
    + done.
Qed.

Lemma mounted_groupVariable shown s :
  Mounted.reachable registry shown s → groupVariable s = "".
Proof.
  induction 1 as [columnTypes|columnTypes shown s Hs IH
                 |e columnTypes shown s Hs IH Hen]; [done..|].
  destruct e; simpl; [done| |done].
  by rewrite handleVariableSelect_groupVariable.
Qed.

(** Every selected variable was a column, and the selected test was on
    offer, for a data set that has been shown. *)
Lemma mounted_columns shown s :
  Mounted.reachable registry shown s →
  (∀ v, v ∈ selectedVariables s →
        ∃ columnTypes, columnTypes ∈ shown ∧ v ∈ allColumns columnTypes) ∧
  (selectedTest s = "" ∨
   ∃ test columnTypes, columnTypes ∈ shown ∧
     test ∈ availableTests registry columnTypes ∧ id test = selectedTest s).
Proof.
  induction 1 as [columnTypes|columnTypes shown s Hs [IHv IHt]
                 |e columnTypes shown s Hs [IHv IHt] Hen].
  - split; [|by left]. intros v Hv. by apply elem_of_nil in Hv.
  - split.
    + intros v Hv. destruct (IHv v Hv) as (c & Hc & Hcol).
      exists c. split; [by right|done].
    + destruct IHt as [Hnone|(test & c & Hc & Htest & Hid)]; [by left|].
      right. exists test, c. split; [by right|done].
  - destruct e as [test|column|]; simpl in *.
    + split.
      * intros v Hv. by apply elem_of_nil in Hv.
      * right. exists test, columnTypes. split; [by left|done].
    + destruct Hen as (_ & Hcol & _).
      rewrite handleVariableSelect_test. split; [|done].
      destruct (findTest registry (selectedTest s)) as [test|] eqn:Hfind.
      * rewrite (handleVariableSelect_toggle _ test) by done.
        intros v [->|Hv]%toggle_elements; [|by apply IHv].
        exists columnTypes. split; [by left|done].
      * by rewrite handleVariableSelect_unregistered.
    + done.
Qed.

End Shown.

Lemma mounted_reachable_Inv shown s :
  Mounted.reachable statisticalTests shown s → Inv statisticalTests s.
Proof.
  apply mounted_Inv;
    [apply statisticalTests_named | apply statisticalTests_arity].
Qed.

Lemma twoTicked_reachable :
  Mounted.reachable statisticalTests [Inputs.ageOnly; mixedColumns]
    Inputs.twoTicked.
Proof.
  apply Mounted.rerendered.
  refine (Mounted.handled statisticalTests (ToggleColumn "team") mixedColumns []
            oneColumnState _ _).
  - apply reachable_mounted, oneColumnState_reachable.
  - simpl. split_and!.
    + discriminate.
    + apply (bool_decide_unpack _). vm_compute. exact I.
    + vm_compute. reflexivity.
Qed.

Lemma twoTicked_emitted :
  Mounted.emitted statisticalTests [Inputs.ageOnly; mixedColumns]
    Inputs.twoTickedSelection.
Proof.
  exists Inputs.twoTicked. split_and!.
  - apply twoTicked_reachable.
  - vm_compute. reflexivity.
  - vm_compute. reflexivity.
Qed.

(** After the data set was replaced, the selection that is run can belong
    to the old one: its columns are not columns of the new data set and its
    test is not offered for it. *)
Example stale_selection :
  Mounted.emitted statisticalTests [Inputs.ageOnly; mixedColumns]
    Inputs.twoTickedSelection ∧
  Inputs.ageOnly !! "score" = None ∧ Inputs.ageOnly !! "team" = None ∧
  nthTest 0 ∉ getAvailableTests statisticalTests Inputs.ageOnly.
Proof.
  split_and!; [apply twoTicked_emitted|reflexivity|reflexivity|].
  apply (bool_decide_unpack _). vm_compute. exact I.
Qed.

(** X2: the variables of every selection handed to [onTestSelect] are
    pairwise distinct; each was a column of a data set the component has
    been shown, and the test was offered for a data set it has been shown.
    When the [columnTypes] prop never changed while the component was
    mounted, that is the current data set; after a change (a late upload
    answer replacing the data set) it need not be. *)
Theorem emitted_variables_shown_columns shown sel :
  Mounted.emitted statisticalTests shown sel →
  NoDup (VariableSelection.variables sel) ∧
  (∀ v, v ∈ VariableSelection.variables sel →
        ∃ columnTypes, columnTypes ∈ shown ∧ is_Some (columnTypes !! v)) ∧
  (∃ test columnTypes, columnTypes ∈ shown ∧
     test ∈ getAvailableTests statisticalTests columnTypes ∧
     id test = VariableSelection.testId sel) ∧
  (∀ columnTypes, shown = [columnTypes] →
     (∀ v, v ∈ VariableSelection.variables sel → is_Some (columnTypes !! v)) ∧
     ∃ test, test ∈ getAvailableTests statisticalTests columnTypes ∧
             id test = VariableSelection.testId sel).
Proof.
  intros (s & Hreach & _ & Hrun).
  apply handleRunTest_Some in Hrun as (Hne & _ & -> & -> & _).
  destruct (mounted_columns _ _ _ Hreach) as [Hcols Htest].
  apply mounted_reachable_Inv in Hreach as [_ Hnd _].
  destruct Htest as [Hnone|(test & c & Hc & Htest & Hid)]; [done|].
  assert (∀ v, v ∈ selectedVariables s →
            ∃ columnTypes, columnTypes ∈ shown ∧ is_Some (columnTypes !! v))
    as Hkeys.
  { intros v Hv. destruct (Hcols v Hv) as (c' & Hc' & Hcol).
    exists c'. split; [done|]. by apply allColumns_keys. }
  split_and!; [done|done|by exists test, c|].
  intros c0 ->. apply list_elem_of_singleton in Hc as ->. split.
  - intros v Hv. destruct (Hkeys v Hv) as (c' & Hc' & Hsome).
    by apply list_elem_of_singleton in Hc' as ->.
  - by exists test.
Qed.

Lemma emitted_variables_shown_columns_witness :
  Mounted.emitted statisticalTests [Inputs.ageOnly; mixedColumns]
    Inputs.twoTickedSelection ∧
  NoDup (VariableSelection.variables Inputs.twoTickedSelection) ∧
  (∀ v, v ∈ VariableSelection.variables Inputs.twoTickedSelection →
        ∃ columnTypes, columnTypes ∈ [Inputs.ageOnly; mixedColumns] ∧
                       is_Some (columnTypes !! v)).
Proof.
  split; [apply twoTicked_emitted|].
  destruct (emitted_variables_shown_columns [Inputs.ageOnly; mixedColumns]
              Inputs.twoTickedSelection twoTicked_emitted)
    as (Hnd & Hcols & _).
  by split.
Defined.

Lemma groupVariable_never_set_witness :
  groupVariable oneColumnState = "" ∧
  VariableSelection.groupVariable oneColumnSelection = None.
Proof.
  destruct (groupVariable_never_set mixedColumns) as [Hstate Hsel].
  split; [apply Hstate, oneColumnState_reachable
         |apply Hsel, oneColumnSelection_emitted].
Defined.

Section Checkbox.

Context (registry : list StatisticalTest.t).

Lemma state_eta s :
  {| selectedTest := selectedTest s; selectedVariables := selectedVariables s;
     groupVariable := groupVariable s |} = s.
Proof. by destruct s. Qed.

Lemma toggle_others n v (vs : list string) :
  n ≠ 1 → filter (λ x, x ≠ v) (toggle n v vs) = filter (λ x, x ≠ v) vs.
Proof.
  intros Hn. unfold toggle.
  assert ((n =? 1) = false) as -> by lia.
  destruct (includes vs v).
  { apply list_filter_filter_l. tauto. }
  destruct (belowLimit (length vs) n); [|done].
  rewrite filter_app, filter_cons_False, filter_nil, app_nil_r by tauto. done.
Qed.

(** X3: for a test that takes more than one variable, the checkbox of a
    column and [handleVariableSelect] agree: when the checkbox is disabled
    the handler would change nothing; when it is enabled the handler flips
    whether the column is selected; in both cases the other selected
    variables stay, in the same order. *)
Theorem checkbox_agrees_with_handler test column s :
  findTest registry (selectedTest s) = Some test → arity test ≠ 1 →
  (checkboxDisabled registry column s = true →
   handleVariableSelect registry column s = s) ∧
  (checkboxDisabled registry column s = false →
   (column ∈ selectedVariables (handleVariableSelect registry column s)
    ↔ column ∉ selectedVariables s)) ∧
  filter (λ x, x ≠ column)
         (selectedVariables (handleVariableSelect registry column s))
  = filter (λ x, x ≠ column) (selectedVariables s).
Proof.
  intros Hfind Hn.
  rewrite (handleVariableSelect_toggle _ test) by done.
  split_and!; [| |by apply toggle_others].
  - unfold checkboxDisabled, handleVariableSelect. rewrite Hfind.
    fold (arity test). assert ((arity test =? 1) = false) as -> by lia.
    destruct (includes (selectedVariables s) column); [done|]. simpl.
    unfold belowLimit. destruct (arity test =? -1); [done|].
    intros Hfull. by assert ((Z.of_nat (length (selectedVariables s))
                                <? arity test) = false) as -> by lia.
  - unfold checkboxDisabled, toggle. rewrite Hfind.
    fold (arity test). assert ((arity test =? 1) = false) as -> by lia.
    destruct (includes (selectedVariables s) column) eqn:Hinc; simpl.
    + intros _. apply includes_true in Hinc.
      rewrite list_elem_of_filter. tauto.
    + apply includes_false in Hinc. unfold belowLimit.
      destruct (arity test =? -1).
      * intros _. rewrite elem_of_app, list_elem_of_singleton. tauto.
      * intros Hroom.
        assert ((Z.of_nat (length (selectedVariables s)) <? arity test) = true)
          as -> by lia.
        rewrite elem_of_app, list_elem_of_singleton. tauto.
Qed.

Lemma single_choice_locked test column s :
  Inv registry s →
  findTest registry (selectedTest s) = Some test → arity test = 1 →
  selectedVariables s ≠ [] →
  (column ∉ selectedVariables s → checkboxDisabled registry column s = true) ∧
  (checkboxDisabled registry column s = false →
   handleVariableSelect registry column s = s).
Proof.
  intros [_ _ Hbound] Hfind Hone Hne.
  assert (¬ unbounded test) as Hfixed by (unfold unbounded; lia).
  specialize (Hbound test Hfind Hfixed). rewrite Hone in Hbound.
  destruct (selectedVariables s) as [|x [|y vs]] eqn:Hvs;
    [done| |simpl in Hbound; lia].
  unfold checkboxDisabled, handleVariableSelect. rewrite Hfind, Hvs.
  fold (arity test). rewrite Hone. simpl.
  destruct (includes [x] column) eqn:Hinc.
  - apply includes_true, list_elem_of_singleton in Hinc as ->.
    split; [intros H; exfalso; apply H; by left|].
    intros _. unfold setSelectedVariables. rewrite <- Hvs. apply state_eta.
  - split; [done|]. simpl. discriminate.
Qed.

End Checkbox.

Lemma checkbox_agrees_with_handler_witness :
  findTest statisticalTests (selectedTest oneColumnState) = Some (nthTest 0) ∧
  arity (nthTest 0) ≠ 1 ∧
  filter (λ x, x ≠ "team")
    (selectedVariables (handleVariableSelect statisticalTests "team" oneColumnState))
  = filter (λ x, x ≠ "team") (selectedVariables oneColumnState).
Proof.
  assert (arity (nthTest 0) ≠ 1) as Hn by (vm_compute; discriminate).
  split_and!; [reflexivity|done|].
  exact (proj2 (proj2 (checkbox_agrees_with_handler statisticalTests
                         (nthTest 0) "team" oneColumnState eq_refl Hn))).
Defined.

(** X4: for a test that takes one variable, once a column is ticked in a
    reachable state the checkbox of every other column is disabled, and a
    click on an enabled checkbox leaves the state as it is: the choice is
    neither replaced nor cleared until a test is selected again. *)
Theorem single_variable_choice_locked columnTypes test column s :
  reachable statisticalTests columnTypes s →
  findTest statisticalTests (selectedTest s) = Some test → arity test = 1 →
  selectedVariables s ≠ [] →
  (column ∉ selectedVariables s →
   checkboxDisabled statisticalTests column s = true) ∧
  (checkboxDisabled statisticalTests column s = false →
   handleVariableSelect statisticalTests column s = s).
Proof.
  intros Hreach. apply single_choice_locked. by eapply reachable_Inv.
Qed.

Lemma shapiroState_reachable :
  reachable statisticalTests numericOnly Inputs.shapiroState.
Proof.
  refine (reachable_step statisticalTests numericOnly (ToggleColumn "score")
            (handleTestSelect "shapiro_wilk" initial) _ _).
  - refine (reachable_step statisticalTests numericOnly
              (ClickTest (nthTest 8)) initial _ _); [constructor|].
    simpl. apply (bool_decide_unpack _). vm_compute. exact I.
  - simpl. split_and!.
    + discriminate.
    + apply (bool_decide_unpack _). vm_compute. exact I.
    + vm_compute. reflexivity.
Qed.

Lemma single_variable_choice_locked_witness :
  reachable statisticalTests numericOnly Inputs.shapiroState ∧
  findTest statisticalTests (selectedTest Inputs.shapiroState)
    = Some (nthTest 8) ∧
  arity (nthTest 8) = 1 ∧
  selectedVariables Inputs.shapiroState ≠ [] ∧
  checkboxDisabled statisticalTests "age" Inputs.shapiroState = true.
Proof.
  assert (selectedVariables Inputs.shapiroState ≠ []) as Hne
    by (vm_compute; discriminate).
  assert ("age" ∉ selectedVariables Inputs.shapiroState) as Hage
    by (apply (bool_decide_unpack _); vm_compute; exact I).
  split_and!; [apply shapiroState_reachable|reflexivity|reflexivity|done|].
  exact (proj1 (single_variable_choice_locked numericOnly (nthTest 8) "age"
                  Inputs.shapiroState shapiroState_reachable eq_refl eq_refl Hne)
               Hage).
Defined.

(** X5: the "Run Analysis" button is rendered exactly when a click on it
    hands a selection to [onTestSelect], and that selection carries the
    selected test and the selected variables as they are. *)
Theorem run_button_emits s :
  (runButtonShown s = true ↔ is_Some (handleRunTest s)) ∧
  (∀ sel, handleRunTest s = Some sel →
     VariableSelection.testId sel = selectedTest s ∧
     VariableSelection.variables sel = selectedVariables s).
Proof.
  split.
  - unfold runButtonShown, handleRunTest.
    destruct (bool_decide (selectedTest s = "")); simpl.
    { split; [done|]. by intros [? ?]. }
    destruct (selectedVariables s) as [|v vs]; simpl.
    + split; [discriminate|by intros [? ?]].
    + split; [by eexists|done].
  - intros sel Hrun.
    by apply handleRunTest_Some in Hrun as (_ & _ & -> & -> & _).
Qed.

Section Offer.

Context (registry : list StatisticalTest.t).

Lemma getAvailableTests_elem columnTypes test :
  test ∈ getAvailableTests registry columnTypes ↔
  test ∈ registry ∧ requirementMet columnTypes "numeric" test ∧
  requirementMet columnTypes "categorical" test.
Proof.
  unfold getAvailableTests.
  rewrite list_elem_of_filter, Is_true_true, keepTest_spec. tauto.
Qed.

Lemma hasColumnOfType_mono (m1 m2 : gmap string string) ty :
  m1 ⊆ m2 → hasColumnOfType m1 ty → hasColumnOfType m2 ty.
Proof.
  intros Hsub [column Hcol]. exists column.
  by eapply lookup_weaken.
Qed.

(** X6: adding columns to the data set never withdraws a test: a test
    offered for a data set is offered for every data set that has the same
    columns and more. *)
Theorem more_columns_more_tests (m1 m2 : gmap string string) test :
  m1 ⊆ m2 →
  test ∈ getAvailableTests registry m1 → test ∈ getAvailableTests registry m2.
Proof.
  intros Hsub. rewrite !getAvailableTests_elem.
  unfold requirementMet. intros (Hin & Hnum & Hcat).
  split_and!; [done|..]; intros H;
    eapply hasColumnOfType_mono; eauto.
Qed.

End Offer.

Lemma hasColumn_flag columnTypes ty :
  bool_decide (0 < length ((filter (λ e : string * string, e.2 = ty)
                              (entries columnTypes)).*1))%nat = true
  ↔ hasColumnOfType columnTypes ty.
Proof. rewrite bool_decide_eq_true. apply columns_of_type. Qed.

(** X7: which tests are offered depends only on whether the data set has a
    numeric column and whether it has a categorical one.  With neither no
    test is offered; with both all ten; with numeric columns only the five
    tests on numeric variables; with categorical columns only the
    chi-square test. *)
Theorem tests_offered_by_column_kinds columnTypes :
  (¬ hasColumnOfType columnTypes "numeric" →
   ¬ hasColumnOfType columnTypes "categorical" →
   getAvailableTests statisticalTests columnTypes = []) ∧
  (hasColumnOfType columnTypes "numeric" →
   hasColumnOfType columnTypes "categorical" →
   getAvailableTests statisticalTests columnTypes = statisticalTests) ∧
  (hasColumnOfType columnTypes "numeric" →
   ¬ hasColumnOfType columnTypes "categorical" →
   id <$> getAvailableTests statisticalTests columnTypes =
   ["paired_t"; "pearson"; "spearman"; "linear_regression"; "shapiro_wilk"]) ∧
  (¬ hasColumnOfType columnTypes "numeric" →
   hasColumnOfType columnTypes "categorical" →
   id <$> getAvailableTests statisticalTests columnTypes = ["chi_square"]).
Proof.
  pose proof (hasColumn_flag columnTypes "numeric") as Hn.
  pose proof (hasColumn_flag columnTypes "categorical") as Hc.
  unfold getAvailableTests, keepTest, numericColumns, categoricalColumns.
  destruct (bool_decide (0 < length ((filter (λ e : string * string,
              e.2 = "numeric") (entries columnTypes)).*1))%nat);
    destruct (bool_decide (0 < length ((filter (λ e : string * string,
              e.2 = "categorical") (entries columnTypes)).*1))%nat);
    split_and!; intros H1 H2;
    try (exfalso; (apply H1; by apply Hn) || (apply H2; by apply Hc));
    try (exfalso; apply Hn in H1; discriminate);
    try (exfalso; apply Hc in H2; discriminate);
    vm_compute; reflexivity.
Qed.

Lemma more_columns_more_tests_witness :
  numericOnly ⊆ <["team" := "categorical"]> numericOnly ∧
  nthTest 3 ∈ getAvailableTests statisticalTests numericOnly ∧
  nthTest 3 ∈ getAvailableTests statisticalTests
                (<["team" := "categorical"]> numericOnly).
Proof.
  assert (numericOnly ⊆ <["team" := "categorical"]> numericOnly) as Hsub
    by (apply insert_subseteq; reflexivity).
  assert (nthTest 3 ∈ getAvailableTests statisticalTests numericOnly) as Hin
    by (apply (bool_decide_unpack _); vm_compute; exact I).
  split_and!; [done..|].
  exact (more_columns_more_tests statisticalTests _ _ (nthTest 3) Hsub Hin).
Defined.


Lemma tests_offered_by_column_kinds_witness :
  ¬ hasColumnOfType Inputs.datesOnly "numeric" ∧
  ¬ hasColumnOfType Inputs.datesOnly "categorical" ∧
  getAvailableTests statisticalTests Inputs.datesOnly = [].
Proof.
  assert (∀ ty, ty ≠ "datetime" → ¬ hasColumnOfType Inputs.datesOnly ty) as Hno.
  { intros ty Hty [column Hcol]. unfold Inputs.datesOnly in Hcol.
    apply lookup_insert_Some in Hcol as [[_ Heq]|[_ Hcol]]; [congruence|].
    by rewrite lookup_empty in Hcol. }
  assert (¬ hasColumnOfType Inputs.datesOnly "numeric") as Hn by by apply Hno.
  assert (¬ hasColumnOfType Inputs.datesOnly "categorical") as Hc by by apply Hno.
  split_and!; [done..|].
  exact (proj1 (tests_offered_by_column_kinds Inputs.datesOnly) Hn Hc).
Defined.

Section Picks.

Context (registry : list StatisticalTest.t).

Lemma picks_appended test picks s :
  findTest registry (selectedTest s) = Some test → arity test ≠ 1 →
  NoDup (selectedVariables s ++ picks) →
  (unbounded test ∨
   Z.of_nat (length (selectedVariables s) + length picks) ≤ arity test) →
  selectedVariables
    (fold_left (λ s v, handleVariableSelect registry v s) picks s)
  = (selectedVariables s ++ picks)%list.
Proof.
  revert s. induction picks as [|v picks IH]; intros s Hfind Hn Hnd Hroom; simpl.
  { by rewrite app_nil_r. }
  assert (selectedVariables (handleVariableSelect registry v s)
          = (selectedVariables s ++ [v])%list) as Hstep.
  { rewrite (handleVariableSelect_toggle _ test) by done. unfold toggle.
    assert ((arity test =? 1) = false) as -> by lia.
    assert (includes (selectedVariables s) v = false) as ->.
    { apply includes_false. apply NoDup_app in Hnd as (_ & Hdisj & _).
      intros Hin. apply (Hdisj v Hin). by left. }
    assert (belowLimit (length (selectedVariables s)) (arity test) = true) as ->;
      [|done].
    unfold belowLimit. destruct (arity test =? -1) eqn:Hunb; [done|].
    destruct Hroom as [Hu|Hroom]; [unfold unbounded in Hu; lia|].
    simpl in Hroom. lia. }
  rewrite IH.
  - by rewrite Hstep, <- app_assoc.
  - by rewrite handleVariableSelect_test.
  - done.
  - by rewrite Hstep, <- app_assoc.
  - rewrite Hstep, length_app. simpl in *.
    destruct Hroom as [Hu|Hroom]; [by left|right; lia].
Qed.

End Picks.

(** X8: for a registered test that takes more than one variable, ticking
    distinct columns one after the other, no more of them than a fixed arity
    allows, selects exactly these columns in the order ticked. *)
Theorem ticked_columns_selected_in_order test picks s :
  test ∈ statisticalTests → arity test ≠ 1 → NoDup picks →
  (unbounded test ∨ Z.of_nat (length picks) ≤ arity test) →
  selectedVariables (afterPicks statisticalTests (id test) picks s) = picks.
Proof.
  intros Hin Hn Hnd Hroom. unfold afterPicks.
  assert (findTest statisticalTests
            (selectedTest (handleTestSelect (id test) s)) = Some test) as Hfind.
  { by apply findTest_registered; [apply statisticalTests_NoDup|]. }
  by rewrite (picks_appended _ test _ _ Hfind).
Qed.

Lemma ticked_columns_selected_in_order_witness :
  nthTest 6 ∈ statisticalTests ∧ arity (nthTest 6) ≠ 1 ∧
  NoDup ["score"; "age"; "height"] ∧
  selectedVariables
    (afterPicks statisticalTests "linear_regression" ["score"; "age"; "height"]
                initial)
  = ["score"; "age"; "height"].
Proof.
  assert (nthTest 6 ∈ statisticalTests) as Hin
    by (apply (bool_decide_unpack _); vm_compute; exact I).
  assert (arity (nthTest 6) ≠ 1) as Hn by (vm_compute; discriminate).
  assert (NoDup ["score"; "age"; "height"]) as Hnd
    by (apply (bool_decide_unpack _); vm_compute; exact I).
  split_and!; [done..|].
  exact (ticked_columns_selected_in_order (nthTest 6) ["score"; "age"; "height"]
           initial Hin Hn Hnd (or_introl eq_refl)).
Defined.

(** ** AnalysisResults *)

Section Rendering.

Import AnalysisResults.



End Rendering.

(** ** ContactDeveloper *)

Section Contact.

Import ContactDeveloper.

Lemma or_truthy a b : JS.truthy b = true → JS.truthy (JS.or a b) = true.
Proof. unfold JS.or. by destruct (JS.truthy a) eqn:Ha. Qed.

(** The message the server sent, when there is one to read. *)
Lemma contact_outcome server :
  ∃ m, JS.truthy m = true ∧
       handleContactClick server =
       [setIsLoading true; axios_get "/contact"; setMessage m;
        setIsLoading false] ∧
       (m = JS.str "Failed to contact developer." ∨
        m = JS.str "Contact successful!" ∨
        ∃ response data, server = JS.fulfilled response ∧
          JS.get response "data" = Some data ∧
          JS.get data "message" = Some m).
Proof.
  unfold handleContactClick.
  destruct server as [response|error];
    [|exists (JS.str "Failed to contact developer."); split_and!;
      [done|done|by left]].
  destruct (JS.get response "data") as [data|] eqn:Hdata;
    [|exists (JS.str "Failed to contact developer."); split_and!;
      [done|done|by left]].
  destruct (JS.get data "message") as [m|] eqn:Hm;
    [|exists (JS.str "Failed to contact developer."); split_and!;
      [done|done|by left]].
  exists (JS.or m (JS.str "Contact successful!")).
  split_and!; [by apply or_truthy|done|].
  unfold JS.or. destruct (JS.truthy m); [|right; by left].
  right. right. by exists response, data.
Qed.

End Contact.

(** X10: however the request to [/contact] ends, [handleContactClick] makes
    exactly one request and sets exactly one message, which is truthy;
    afterwards [isLoading] is false.  The component then renders the
    paragraph, with the button enabled, exactly when the message can be a
    JSX child; it cannot only when the server itself sent a [message] that
    is an object (or an array with an object in it), and rendering then
    throws. *)
Theorem contact_always_answers server s :
  (∃ m, JS.truthy m = true ∧
        ContactDeveloper.handleContactClick server =
        [ContactDeveloper.setIsLoading true;
         ContactDeveloper.axios_get "/contact";
         ContactDeveloper.setMessage m;
         ContactDeveloper.setIsLoading false]) ∧
  ContactDeveloper.isLoading
    (ContactDeveloper.run (ContactDeveloper.handleContactClick server) s)
    = false ∧
  JS.truthy (ContactDeveloper.message
    (ContactDeveloper.run (ContactDeveloper.handleContactClick server) s))
    = true ∧
  ContactDeveloper.render
    (ContactDeveloper.run (ContactDeveloper.handleContactClick server) s)
  = (if React.validChild (ContactDeveloper.message
          (ContactDeveloper.run (ContactDeveloper.handleContactClick server) s))
     then Some {| ContactDeveloper.buttonDisabled := false;
                  ContactDeveloper.paragraphShown := true |}
     else None) ∧
  (React.validChild (ContactDeveloper.message
      (ContactDeveloper.run (ContactDeveloper.handleContactClick server) s))
     = false →
   ∃ response data, server = JS.fulfilled response ∧
     JS.get response "data" = Some data ∧
     JS.get data "message" = Some (ContactDeveloper.message
       (ContactDeveloper.run (ContactDeveloper.handleContactClick server) s))).
Proof.
  destruct (contact_outcome server) as (m & Hm & Hcalls & Horigin).
  split; [by exists m|]. rewrite Hcalls.
  change (ContactDeveloper.run _ s)
    with {| ContactDeveloper.isLoading := false; ContactDeveloper.message := m |}.
  unfold ContactDeveloper.render. simpl. rewrite Hm.
  split_and!; [done..|].
  intros Hbad. by destruct Horigin as [->|[->|Horigin]].
Qed.

Example contact_object_message :
  ContactDeveloper.render
    (ContactDeveloper.run
       (ContactDeveloper.handleContactClick
          (JS.fulfilled (JS.object [("data", JS.object
             [("message", JS.object [("text", JS.str "hello")])])])))
       ContactDeveloper.initial) = None.
Proof. reflexivity. Qed.

Example contact_refused :
  ContactDeveloper.render
    (ContactDeveloper.run
       (ContactDeveloper.handleContactClick (JS.rejected JS.null))
       ContactDeveloper.initial)
  = Some {| ContactDeveloper.buttonDisabled := false;
            ContactDeveloper.paragraphShown := true |}.
Proof. reflexivity. Qed.

(** ** FileUpload *)

Section Extension.

Import FileUpload.

Lemma append_cons c s t : String c s +:+ t = String c (s +:+ t).
Proof. reflexivity. Qed.

Lemma append_nil t : "" +:+ t = t.
Proof. reflexivity. Qed.

Lemma append_empty s : s +:+ "" = s.
Proof.
  induction s as [|c s IH]; [done|]. by rewrite append_cons, IH.
Qed.

Lemma append_char piece c s : (piece +:+ String c "") +:+ s = piece +:+ String c s.
Proof.
  induction piece as [|d piece IH]; [done|]. by rewrite !append_cons, IH.
Qed.

Lemma split_dot_nonempty piece s : split_dot piece s ≠ [].
Proof.
  revert piece. induction s as [|c s IH]; intros piece; simpl; [done|].
  case_bool_decide; [done|apply IH].
Qed.

Lemma split_dot_whole piece s :
  ¬ Dropzone.hasDot s → split_dot piece s = [piece +:+ s].
Proof.
  unfold Dropzone.hasDot. revert piece.
  induction s as [|c s IH]; intros piece Hno; simpl.
  { by rewrite append_empty. }
  simpl in Hno. apply not_elem_of_cons in Hno as [Hc Hno].
  rewrite bool_decide_eq_false_2 by congruence.
  rewrite IH by done. by rewrite append_char.
Qed.

Lemma last_split_dot piece base ext :
  last (split_dot piece (base +:+ String "." ext)) = last (split_dot "" ext).
Proof.
  revert piece. induction base as [|c base IH]; intros piece.
  - rewrite append_nil. simpl.
    pose proof (split_dot_nonempty "" ext).
    destruct (split_dot "" ext); [done|]. apply last_cons_cons.
  - rewrite append_cons. simpl. case_bool_decide; [|apply IH].
    rewrite <- (IH "").
    pose proof (split_dot_nonempty "" (base +:+ String "." ext)).
    destruct (split_dot "" (base +:+ String "." ext)); [done|].
    apply last_cons_cons.
Qed.

Lemma lower_char_dot c : lower_char c = "."%char ↔ c = "."%char.
Proof.
  destruct c as [[] [] [] [] [] [] [] []]; vm_compute; split; congruence.
Qed.

Lemma lower_char_idemp c : lower_char (lower_char c) = lower_char c.
Proof. destruct c as [[] [] [] [] [] [] [] []]; reflexivity. Qed.

Lemma toLowerCase_idemp s : toLowerCase (toLowerCase s) = toLowerCase s.
Proof.
  induction s as [|c s IH]; simpl; [done|]. by rewrite lower_char_idemp, IH.
Qed.

Lemma toLowerCase_app s1 s2 :
  toLowerCase (s1 +:+ s2) = toLowerCase s1 +:+ toLowerCase s2.
Proof.
  induction s1 as [|c s1 IH]; [done|]. rewrite append_cons. simpl.
  by rewrite IH, append_cons.
Qed.

Lemma split_dot_lower piece s :
  split_dot (toLowerCase piece) (toLowerCase s)
  = toLowerCase <$> split_dot piece s.
Proof.
  revert piece. induction s as [|c s IH]; intros piece; simpl; [done|].
  destruct (decide (c = "."%char)) as [->|Hc].
  - simpl. f_equal. apply (IH "").
  - rewrite !bool_decide_eq_false_2; [|done|by rewrite lower_char_dot].
    rewrite <- IH. by rewrite toLowerCase_app.
Qed.

Lemma dotExtension_lower nm ty sz :
  dotExtension {| name := toLowerCase nm; type := ty; size := sz |}
  = dotExtension {| name := nm; type := ty; size := sz |}.
Proof.
  unfold dotExtension, pop. simpl.
  change "" with (toLowerCase "") at 1.
  rewrite split_dot_lower, fmap_last.
  destruct (last (split_dot "" nm)); simpl; [|done].
  by rewrite toLowerCase_idemp.
Qed.

(** X11: the type check of [processFile] looks at the file name only
    through the text after its last dot (the whole name when it has no dot),
    lower-cased: two names that differ only in the case of ASCII letters are
    accepted or rejected alike. *)
Theorem extension_after_last_dot :
  (∀ base ext ty sz, ¬ Dropzone.hasDot ext →
     dotExtension {| name := base +:+ String "." ext; type := ty; size := sz |}
     = String "." (toLowerCase ext)) ∧
  (∀ nm ty sz, ¬ Dropzone.hasDot nm →
     dotExtension {| name := nm; type := ty; size := sz |}
     = String "." (toLowerCase nm)) ∧
  (∀ n1 n2 ty sz, toLowerCase n1 = toLowerCase n2 →
     acceptedType {| name := n1; type := ty; size := sz |}
     = acceptedType {| name := n2; type := ty; size := sz |}).
Proof.
  split_and!.
  - intros base ext ty sz Hno. unfold dotExtension, pop. simpl.
    by rewrite last_split_dot, split_dot_whole.
  - intros nm ty sz Hno. unfold dotExtension, pop. simpl.
    by rewrite split_dot_whole.
  - intros n1 n2 ty sz Heq. unfold acceptedType. simpl.
    rewrite <- (dotExtension_lower n1), <- (dotExtension_lower n2).
    by rewrite Heq.
Qed.

End Extension.

Lemma extension_after_last_dot_witness :
  ¬ Dropzone.hasDot "XLSX" ∧
  FileUpload.dotExtension
    {| FileUpload.name := "report.v2" +:+ String "." "XLSX";
       FileUpload.type := ""; FileUpload.size := 1 |} = ".xlsx" ∧
  FileUpload.acceptedType
    {| FileUpload.name := "DATA.CSV"; FileUpload.type := ""; FileUpload.size := 1 |}
  = FileUpload.acceptedType
    {| FileUpload.name := "data.csv"; FileUpload.type := ""; FileUpload.size := 1 |}.
Proof.
  assert (¬ Dropzone.hasDot "XLSX") as Hno
    by (apply (bool_decide_unpack _); vm_compute; exact I).
  split_and!; [done| |].
  - exact (proj1 extension_after_last_dot "report.v2" "XLSX" "" 1 Hno).
  - exact (proj2 (proj2 extension_after_last_dot) "DATA.CSV" "data.csv" "" 1
             eq_refl).
Defined.

Section Requests.

Import FileUpload.

(** No call of the list is [setSelectedFile]. *)
Local Ltac no_selection :=
  let Hin := fresh "Hin" in
  intros ? Hin;
  repeat (apply elem_of_cons in Hin as [Hin|Hin]; [discriminate Hin|]);
  by apply elem_of_nil in Hin.

Lemma uploadFile_shape server file :
  uploadFile server file =
  ([setIsUploading true; setUploadError JS.null; axios_post "/upload" file]
     ++ Dropzone.afterRequest (server file) ++ [setIsUploading false])%list.
Proof. reflexivity. Qed.


Lemma uploadFailed_TypeError : (uploadFailed JS.TypeError).2 = true.
Proof. reflexivity. Qed.

Lemma afterRequest_success outcome d :
  Dropzone.uploadSucceeded outcome = Some d →
  Dropzone.afterRequest outcome = [onFileUpload d].
Proof.
  unfold Dropzone.uploadSucceeded, Dropzone.afterRequest, uploadAnswered.
  destruct outcome as [response|error]; [|done].
  destruct (JS.get response "data") as [data|]; [simpl|done].
  destruct (JS.get data "success") as [success|]; [simpl|done].
  destruct (JS.truthy success); [|done]. by intros [= ->].
Qed.


Lemma afterRequest_quiet outcome :
  Dropzone.uploadSucceeded outcome = None →
  Dropzone.posted (Dropzone.afterRequest outcome) = [] ∧
  Dropzone.delivered (Dropzone.afterRequest outcome) = [] ∧
  ∀ f, setSelectedFile f ∉ Dropzone.afterRequest outcome.
Proof.
  unfold Dropzone.uploadSucceeded, Dropzone.afterRequest, uploadAnswered.
  assert (∀ error, Dropzone.posted (uploadFailed error).1 = [] ∧
            Dropzone.delivered (uploadFailed error).1 = [] ∧
            ∀ f, setSelectedFile f ∉ (uploadFailed error).1) as Hcatch.
  { intros error. unfold uploadFailed.
    repeat case_match; simpl; split_and!; try done; no_selection. }
  destruct outcome as [response|error]; [|intros _; apply Hcatch].
  destruct (JS.get response "data") as [data|]; simpl;
    [|intros _; apply (Hcatch JS.TypeError)].
  destruct (JS.get data "success") as [success|]; simpl;
    [|intros _; apply (Hcatch JS.TypeError)].
  destruct (JS.truthy success); [done|]. intros _.
  destruct (JS.get data "error"); [|apply (Hcatch JS.TypeError)].
  split_and!; [done..|]. no_selection.
Qed.

Lemma valid_true file :
  Dropzone.valid file = true ↔ acceptedType file = true ∧ size file ≤ maxSize.
Proof. unfold Dropzone.valid. rewrite andb_true_iff, Z.leb_le. done. Qed.

Lemma valid_false file :
  Dropzone.valid file = false →
  ∃ message, JS.truthy (JS.str message) = true ∧
    ∀ server, processFile server file =
      [setUploadError JS.null; setUploadError (JS.str message)].
Proof.
  unfold Dropzone.valid. intros Hv.
  destruct (acceptedType file) eqn:Hty.
  - simpl in Hv. apply Z.leb_gt in Hv. eexists. split; [|intros server;
      by apply processFile_too_large]. done.
  - eexists. split; [|intros server; by apply processFile_rejected_type]. done.
Qed.

Lemma processFile_valid server file :
  Dropzone.valid file = true →
  processFile server file =
  ([setUploadError JS.null; setSelectedFile file;
    setIsUploading true; setUploadError JS.null; axios_post "/upload" file]
     ++ Dropzone.afterRequest (server file) ++ [setIsUploading false])%list.
Proof.
  intros [Hty Hsize]%valid_true.
  by rewrite processFile_uploads, uploadFile_shape.
Qed.

(** X12: [processFile] posts a file at most once, and only the file it was
    given after both checks passed; it hands data to [onFileUpload] at most
    once, exactly when the answer to that request reports success, and then
    the data of that answer; it stores a selected file only when both checks
    passed. *)
Theorem processFile_uploads_once server file :
  Dropzone.posted (processFile server file)
    = (if Dropzone.valid file then [file] else []) ∧
  Dropzone.delivered (processFile server file)
    = (if Dropzone.valid file
       then match Dropzone.uploadSucceeded (server file) with
            | Some d => [d]
            | None => []
            end
       else []) ∧
  (∀ f, setSelectedFile f ∈ processFile server file →
        f = file ∧ Dropzone.valid file = true).
Proof.
  destruct (Dropzone.valid file) eqn:Hv.
  - rewrite processFile_valid by done.
    unfold Dropzone.posted, Dropzone.delivered. rewrite !omap_app. simpl.
    fold (Dropzone.posted (Dropzone.afterRequest (server file))).
    fold (Dropzone.delivered (Dropzone.afterRequest (server file))).
    destruct (Dropzone.uploadSucceeded (server file)) as [d|] eqn:Hok.
    + rewrite (afterRequest_success _ d) by done. simpl.
      split_and!; [done..|]. intros f Hin.
      repeat (apply elem_of_cons in Hin as [Hin|Hin];
              [by (discriminate Hin || injection Hin as ->)|]).
      by apply elem_of_nil in Hin.
    + destruct (afterRequest_quiet _ Hok) as (-> & -> & Hsel).
      split_and!; [done..|]. intros f Hin.
      do 5 (apply elem_of_cons in Hin as [Hin|Hin];
            [by (discriminate Hin || injection Hin as ->)|]).
      apply elem_of_app in Hin as [Hin|Hin]; [by apply Hsel in Hin|].
      apply list_elem_of_singleton in Hin. discriminate Hin.
  - destruct (valid_false _ Hv) as (message & _ & Hcalls). rewrite Hcalls.
    split_and!; [done..|]. no_selection.
Qed.

Lemma run_app_dropzone calls1 calls2 s :
  Dropzone.run (calls1 ++ calls2) s = Dropzone.run calls2 (Dropzone.run calls1 s).
Proof. unfold Dropzone.run. apply fold_left_app. Qed.


End Requests.

Lemma processFile_uploads_once_witness :
  Dropzone.posted (FileUpload.processFile okServer fullCsv) = [fullCsv] ∧
  Dropzone.posted (FileUpload.processFile okServer bigCsv) = [] ∧
  (FileUpload.setSelectedFile fullCsv ∈ FileUpload.processFile okServer fullCsv →
   Dropzone.valid fullCsv = true).
Proof.
  split_and!.
  - exact (proj1 (processFile_uploads_once okServer fullCsv)).
  - exact (proj1 (processFile_uploads_once okServer bigCsv)).
  - intros Hin.
    exact (proj2 (proj2 (proj2 (processFile_uploads_once okServer fullCsv))
                    fullCsv Hin)).
Defined.


(** ** App *)

Section AppHandlers.

Import App.

Lemma run_quiet calls s :
  Forall Session.quiet calls →
  isAnalyzing (run calls s) = isAnalyzing s ∧
  analysisSelection (run calls s) = analysisSelection s ∧
  uploadData (run calls s) = uploadData s ∧
  darkMode (run calls s) = darkMode s.
Proof.
  unfold run. intros Hall. revert s.
  induction Hall as [|c calls Hc _ IH]; intros s; simpl; [done|].
  destruct (IH (apply c s)) as (-> & -> & -> & ->). by destruct c.
Qed.

Lemma run_cons c calls s : run (c :: calls) s = run calls (apply c s).
Proof. reflexivity. Qed.

Lemma run_append calls1 calls2 s :
  run (calls1 ++ calls2) s = run calls2 (run calls1 s).
Proof. unfold run. apply fold_left_app. Qed.

Lemma analyzeFailed_quiet error : Forall Session.quiet (analyzeFailed error).
Proof.
  unfold analyzeFailed. destruct (JS.get error "response"); repeat constructor.
Qed.

Lemma analyzeAnswered_quiet response :
  match analyzeAnswered response with
  | inl calls => Forall Session.quiet calls
  | inr _ => True
  end.
Proof.
  unfold analyzeAnswered. repeat case_match; simplify_eq; repeat constructor.
Qed.

Lemma handleAnalyze_two_phases server s selection :
  handleAnalyze server s selection =
  ((Session.analyzeStarted s selection).1 ++
   match (Session.analyzeStarted s selection).2 with
   | Some body => Session.analyzeSettled (server body)
   | None => []
   end)%list.
Proof.
  unfold handleAnalyze, Session.analyzeStarted, Session.analyzeSettled.
  destruct (analyzeRequest (uploadData s) selection) as [body|].
  - reflexivity.
  - symmetry. apply app_nil_r.
Qed.

Lemma analyzeSettled_quiet outcome :
  ∃ middle, Session.analyzeSettled outcome
            = (middle ++ [setIsAnalyzing false])%list ∧ Forall Session.quiet middle.
Proof.
  unfold Session.analyzeSettled. eexists. split; [done|].
  destruct outcome as [response|error]; [|apply analyzeFailed_quiet].
  pose proof (analyzeAnswered_quiet response).
  destruct (analyzeAnswered response); [done|apply analyzeFailed_quiet].
Qed.

Lemma handleAnalyze_middle server s selection :
  ∃ middle, handleAnalyze server s selection =
    ([setIsAnalyzing true; setAnalysisSelection selection] ++ middle
       ++ [setIsAnalyzing false])%list ∧ Forall Session.quiet middle.
Proof.
  unfold handleAnalyze. eexists. split; [done|].
  destruct (analyzeRequest (uploadData s) selection) as [body|];
    [|apply analyzeFailed_quiet].
  constructor; [done|].
  destruct (server body) as [response|error]; [|apply analyzeFailed_quiet].
  pose proof (analyzeAnswered_quiet response).
  destruct (analyzeAnswered response); [done|apply analyzeFailed_quiet].
Qed.

Lemma handleAnalyze_ends server s selection s' :
  isAnalyzing (run (handleAnalyze server s selection) s') = false ∧
  analysisSelection (run (handleAnalyze server s selection) s') = selection ∧
  uploadData (run (handleAnalyze server s selection) s') = uploadData s' ∧
  darkMode (run (handleAnalyze server s selection) s') = darkMode s'.
Proof.
  destruct (handleAnalyze_middle server s selection) as (middle & -> & Hq).
  rewrite !run_append.
  set (s0 := run [setIsAnalyzing true; setAnalysisSelection selection] s').
  destruct (run_quiet middle s0 Hq) as (Ha & Hs & Hu & Hd).
  change (run [setIsAnalyzing false] (run middle s0))
    with (apply (setIsAnalyzing false) (run middle s0)).
  simpl. by rewrite Hs, Hu, Hd.
Qed.

Lemma handleAnalyze_stores server s selection s' data :
  reportsSuccess server s selection = Some data →
  analysisResults (run (handleAnalyze server s selection) s')
    = JS.get_opt data "results" ∧
  currentView (run (handleAnalyze server s selection) s') = results.
Proof.
  intros Hok. by destruct (handleAnalyze_success _ _ _ _ Hok) as [body ->].
Qed.

End AppHandlers.

(** X14: on every path [handleAnalyze] ends with [isAnalyzing] false (the
    [finally] block), leaves the selection it was called with in
    [analysisSelection], also when the analysis failed, and does not touch
    [uploadData]; when the answer reports success it stores the [results]
    of the answer and switches to the results view. *)
Theorem handleAnalyze_final_state server s selection s' :
  (App.isAnalyzing (App.run (App.handleAnalyze server s selection) s') = false ∧
   App.analysisSelection (App.run (App.handleAnalyze server s selection) s')
     = selection ∧
   App.uploadData (App.run (App.handleAnalyze server s selection) s')
     = App.uploadData s' ∧
   App.darkMode (App.run (App.handleAnalyze server s selection) s')
     = App.darkMode s') ∧
  (∀ data, App.reportsSuccess server s selection = Some data →
     App.analysisResults (App.run (App.handleAnalyze server s selection) s')
       = JS.get_opt data "results" ∧
     App.currentView (App.run (App.handleAnalyze server s selection) s')
       = App.results).
Proof.
  split; [apply handleAnalyze_ends|]. intros data. apply handleAnalyze_stores.
Qed.

Lemma handleAnalyze_final_state_witness :
  App.reportsSuccess answeringServer analysisState pearsonSelection
    = Some (JS.object [("success", JS.boolean true);
                       ("results", JS.object [("test", JS.str "pearson_correlation")])]) ∧
  App.currentView
    (App.run (App.handleAnalyze answeringServer analysisState pearsonSelection)
             analysisState) = App.results ∧
  App.isAnalyzing
    (App.run (App.handleAnalyze answeringServer analysisState pearsonSelection)
             analysisState) = false.
Proof.
  destruct (handleAnalyze_final_state answeringServer analysisState
              pearsonSelection analysisState) as [(Hflag & _) Hstore].
  split_and!; [reflexivity| |exact Hflag].
  exact (proj2 (Hstore _ eq_refl)).
Defined.

Section AppMessages.

Import App.

Lemma get_None v key : JS.get v key = None ↔ Session.nullish v.
Proof.
  unfold Session.nullish. destruct v; simpl; split; try done;
    try (by left); try (by right); intros [?|?]; done.
Qed.

Lemma analyzeRequest_None u selection :
  analyzeRequest u selection = None ↔
  Session.nullish u ∨ Session.nullish selection.
Proof.
  unfold analyzeRequest. rewrite <- !(get_None _ "filename").
  destruct selection; simpl; try (split; [by right|done]);
    destruct (JS.get u "filename"); simpl; split; try done;
    try (by left); intros [?|?]; done.
Qed.

Lemma alerts_app calls1 calls2 :
  Session.alerts (calls1 ++ calls2)
  = (Session.alerts calls1 ++ Session.alerts calls2)%list.
Proof. apply omap_app. Qed.

Lemma posts_app calls1 calls2 :
  Session.posts (calls1 ++ calls2)
  = (Session.posts calls1 ++ Session.posts calls2)%list.
Proof. apply omap_app. Qed.

Lemma analyzeFailed_alerts error :
  Session.posts (analyzeFailed error) = [] ∧
  ∀ m, m ∈ Session.alerts (analyzeFailed error) → JS.truthy m = true.
Proof.
  unfold analyzeFailed. destruct (JS.get error "response"); simpl.
  - split; [done|]. intros m ->%list_elem_of_singleton. by apply or_truthy.
  - split; [done|]. intros m Hm. by apply elem_of_nil in Hm.
Qed.

Lemma analyzeFailed_TypeError :
  analyzeFailed JS.TypeError =
  [console_error "Analysis error:" JS.TypeError;
   alert (JS.str "Failed to run analysis")].
Proof. reflexivity. Qed.

Lemma handleAnalyze_posts server s selection :
  Session.posts (handleAnalyze server s selection) =
  match analyzeRequest (uploadData s) selection with
  | Some body => [("/analyze", body)]
  | None => []
  end.
Proof.
  unfold handleAnalyze.
  destruct (analyzeRequest (uploadData s) selection) as [body|]; [|done].
  rewrite !posts_app. simpl. f_equal.
  destruct (server body) as [response|error];
    [|by rewrite (proj1 (analyzeFailed_alerts error))].
  unfold analyzeAnswered. repeat case_match; simplify_eq; try done;
    apply analyzeFailed_alerts.
Qed.

Lemma handleAnalyze_alerts server s selection m :
  m ∈ Session.alerts (handleAnalyze server s selection) →
  JS.truthy m = true ∧ reportsSuccess server s selection = None.
Proof.
  destruct (reportsSuccess server s selection) as [data|] eqn:Hok.
  { destruct (handleAnalyze_success _ _ _ _ Hok) as [body ->].
    simpl. intros Hm. by apply elem_of_nil in Hm. }
  intros Hm. split; [|done]. revert Hm. unfold handleAnalyze.
  rewrite !alerts_app. simpl. rewrite app_nil_r.
  destruct (analyzeRequest (uploadData s) selection) as [body|];
    [|apply analyzeFailed_alerts].
  simpl. destruct (server body) as [response|error];
    [|apply analyzeFailed_alerts].
  unfold analyzeAnswered. repeat case_match; simplify_eq;
    try apply analyzeFailed_alerts; simpl; intros Hm;
    by apply elem_of_nil in Hm.
Qed.

Lemma handleAnalyze_refused server s selection body response data v :
  analyzeRequest (uploadData s) selection = Some body →
  server body = JS.fulfilled response →
  JS.get response "data" = Some data →
  JS.get data "success" = Some v → JS.truthy v = false →
  handleAnalyze server s selection =
  [setIsAnalyzing true; setAnalysisSelection selection;
   axios_post "/analyze" body; setIsAnalyzing false].
Proof.
  intros Hreq Hans Hdata Hsuccess Hfalsy.
  unfold handleAnalyze, analyzeAnswered.
  by rewrite Hreq, Hans, Hdata, Hsuccess, Hfalsy.
Qed.

End AppMessages.

(** X15: [handleAnalyze] raises an alert only when the analysis did not
    succeed, and never an empty one.  When the server answers but its answer
    does not report success, nothing is shown at all: the only calls are the
    two setters, the request and the reset of [isAnalyzing]. *)
Theorem handleAnalyze_feedback server s selection :
  (∀ m, m ∈ Session.alerts (App.handleAnalyze server s selection) →
        JS.truthy m = true ∧ App.reportsSuccess server s selection = None) ∧
  (∀ body response data v,
     App.analyzeRequest (App.uploadData s) selection = Some body →
     server body = JS.fulfilled response →
     JS.get response "data" = Some data →
     JS.get data "success" = Some v → JS.truthy v = false →
     App.handleAnalyze server s selection =
     [App.setIsAnalyzing true; App.setAnalysisSelection selection;
      App.axios_post "/analyze" body; App.setIsAnalyzing false]).
Proof.
  split; [apply handleAnalyze_alerts|apply handleAnalyze_refused].
Qed.

Lemma handleAnalyze_feedback_witness :
  App.handleAnalyze failingServer analysisState pearsonSelection =
  [App.setIsAnalyzing true; App.setAnalysisSelection pearsonSelection;
   App.axios_post "/analyze"
     (JS.object [("test_id", JS.str "pearson");
                 ("variables", JS.array [JS.str "score"; JS.str "age"]);
                 ("group_variable", JS.undefined);
                 ("filename", JS.str "data.csv")]);
   App.setIsAnalyzing false].
Proof.
  exact (proj2 (handleAnalyze_feedback failingServer analysisState
                  pearsonSelection) _ _ _ _ eq_refl eq_refl eq_refl eq_refl
               eq_refl).
Defined.

(** X16: [handleAnalyze] sends at most one request, to [/analyze].  It sends
    none exactly when the request cannot be built, that is when [uploadData]
    or the selection is [null] or [undefined]; the user is then alerted with
    "Failed to run analysis". *)
Theorem handleAnalyze_request server s selection :
  Session.posts (App.handleAnalyze server s selection) =
    match App.analyzeRequest (App.uploadData s) selection with
    | Some body => [("/analyze", body)]
    | None => []
    end ∧
  (App.analyzeRequest (App.uploadData s) selection = None ↔
   Session.nullish (App.uploadData s) ∨ Session.nullish selection) ∧
  (App.analyzeRequest (App.uploadData s) selection = None →
   Session.alerts (App.handleAnalyze server s selection)
   = [JS.str "Failed to run analysis"]).
Proof.
  split_and!; [apply handleAnalyze_posts|apply analyzeRequest_None|].
  intros Hnone. unfold App.handleAnalyze. by rewrite Hnone.
Qed.

Lemma handleAnalyze_request_witness :
  App.analyzeRequest (App.uploadData App.initial) pearsonSelection = None ∧
  Session.alerts (App.handleAnalyze answeringServer App.initial pearsonSelection)
  = [JS.str "Failed to run analysis"] ∧
  Session.posts (App.handleAnalyze answeringServer App.initial pearsonSelection)
  = [].
Proof.
  destruct (handleAnalyze_request answeringServer App.initial pearsonSelection)
    as (Hposts & _ & Halert).
  split_and!; [reflexivity|exact (Halert eq_refl)|exact Hposts].
Defined.
(** X17: from the selection component to the request.  A selection handed
    to [onTestSelect] is passed to [handleAnalyze]; when a data set is loaded
    ([uploadData] is an object) the request built from it lists the ticked
    columns in order, carries the file name of the data set that is loaded
    now, has no group variable, and names a test that was offered for a
    data set the selection component has been shown (the current one when
    the data set never changed while the component was mounted). *)
Theorem emitted_selection_request shown sel fields :
  Mounted.emitted statisticalTests shown sel →
  App.analyzeRequest (JS.object fields) (Session.selectionObject sel) =
    Some (JS.object
      [("test_id", JS.str (VariableSelection.testId sel));
       ("variables", JS.array (JS.str <$> VariableSelection.variables sel));
       ("group_variable", JS.undefined);
       ("filename", JS.lookup_field "filename" fields)]) ∧
  (∃ test columnTypes, columnTypes ∈ shown ∧
     test ∈ getAvailableTests statisticalTests columnTypes ∧
     id test = VariableSelection.testId sel) ∧
  (∀ columnTypes, shown = [columnTypes] →
     ∃ test, test ∈ getAvailableTests statisticalTests columnTypes ∧
             id test = VariableSelection.testId sel).
Proof.
  intros (s & Hreach & _ & Hrun).
  apply handleRunTest_Some in Hrun as (Hne & _ & Hid & _ & Hgroup).
  rewrite (mounted_groupVariable _ _ _ Hreach) in Hgroup. simpl in Hgroup.
  destruct (mounted_columns _ _ _ Hreach)
    as [_ [Hnone|(test & c & Hc & Htest & Htag)]]; [done|].
  split_and!.
  - unfold App.analyzeRequest, Session.selectionObject. by rewrite Hgroup.
  - exists test, c. by rewrite Hid.
  - intros c0 ->. apply list_elem_of_singleton in Hc as ->.
    exists test. by rewrite Hid.
Qed.

Lemma emitted_selection_request_witness :
  Mounted.emitted statisticalTests [Inputs.ageOnly; mixedColumns]
    Inputs.twoTickedSelection ∧
  App.analyzeRequest (JS.object [("filename", JS.str "ages.csv")])
    (Session.selectionObject Inputs.twoTickedSelection) =
    Some (JS.object
      [("test_id", JS.str "independent_t");
       ("variables", JS.array [JS.str "score"; JS.str "team"]);
       ("group_variable", JS.undefined);
       ("filename", JS.str "ages.csv")]).
Proof.
  split; [apply twoTicked_emitted|].
  exact (proj1 (emitted_selection_request [Inputs.ageOnly; mixedColumns]
                  Inputs.twoTickedSelection
                  [("filename", JS.str "ages.csv")] twoTicked_emitted)).
Defined.

Section Sample.

Import App.

Lemma sampleFailed_quiet error : Forall Session.quiet (Session.sampleFailed error).
Proof. repeat constructor. Qed.

Lemma sampleSettled_success sample server data :
  Session.sampleSucceeded sample server = Some data →
  ∃ text, Session.sampleSettled sample server =
    [axios_post "/upload" (Session.sampleForm text);
     setUploadData data; setCurrentView analysis; setIsAnalyzing false].
Proof.
  unfold Session.sampleSucceeded, Session.sampleSettled, Session.sampleUploaded,
    Dropzone.uploadSucceeded.
  destruct sample as [text|error]; [|done].
  destruct (server (Session.sampleForm text)) as [response|error]; [|done].
  destruct (JS.get response "data") as [d|]; [simpl|done].
  destruct (JS.get d "success") as [success|]; [simpl|done].
  destruct (JS.truthy success); [|done]. intros [= ->]. by exists text.
Qed.

Lemma sampleSettled_failure sample server :
  Session.sampleSucceeded sample server = None →
  ∃ middle, Session.sampleSettled sample server
            = (middle ++ [setIsAnalyzing false])%list ∧
    Forall (λ c, Session.quiet c ∧ storesResultOrView c = false) middle ∧
    ∀ m, m ∈ Session.alerts middle →
         m = JS.str "Failed to load sample data. Please try again.".
Proof.
  unfold Session.sampleSucceeded, Session.sampleSettled, Session.sampleUploaded,
    Dropzone.uploadSucceeded.
  intros Hfail. eexists. split; [done|].
  assert (∀ error,
    Forall (λ c, Session.quiet c ∧ storesResultOrView c = false)
           (Session.sampleFailed error) ∧
    ∀ m, m ∈ Session.alerts (Session.sampleFailed error) →
         m = JS.str "Failed to load sample data. Please try again.") as Hcatch.
  { intros error. split; [by repeat constructor|].
    by intros m ->%list_elem_of_singleton. }
  assert (∀ c rest,
    (Forall (λ c, Session.quiet c ∧ storesResultOrView c = false) rest ∧
     ∀ m, m ∈ Session.alerts rest →
          m = JS.str "Failed to load sample data. Please try again.") →
    Forall (λ c, Session.quiet c ∧ storesResultOrView c = false)
           (axios_post "/upload" c :: rest) ∧
    ∀ m, m ∈ Session.alerts (axios_post "/upload" c :: rest) →
         m = JS.str "Failed to load sample data. Please try again.") as Hpost.
  { intros c rest [Hq Ha]. split; [by constructor|done]. }
  destruct sample as [text|error]; [|apply Hcatch].
  apply Hpost.
  destruct (server (Session.sampleForm text)) as [response|error];
    [|apply Hcatch].
  destruct (JS.get response "data") as [d|]; simpl in *;
    [|apply (Hcatch JS.TypeError)].
  destruct (JS.get d "success") as [success|]; simpl in *;
    [|apply (Hcatch JS.TypeError)].
  destruct (JS.truthy success); [done|].
  split; [constructor|]. intros m Hm. by apply elem_of_nil in Hm.
Qed.

Lemma run_unchanged calls s :
  Forall (λ c, Session.quiet c ∧ storesResultOrView c = false) calls →
  run calls s = s.
Proof.
  unfold run. intros Hall. revert s.
  induction Hall as [|c calls [Hq Hs] _ IH]; intros s; simpl; [done|].
  rewrite IH. destruct c; try done; by destruct s.
Qed.

(** X18: [handleUseSample] always ends with [isAnalyzing] false and never
    touches the analysis results or the analysis selection.  When the
    sample is fetched and its upload reports success, the data of the answer
    becomes [uploadData] and the view becomes the analysis view, without any
    alert; otherwise [uploadData] and the view stay as they are, and the
    only alert there can be is "Failed to load sample data. Please try
    again.". *)
Theorem handleUseSample_final_state sample server s :
  isAnalyzing (run (Session.handleUseSample sample server) s) = false ∧
  analysisResults (run (Session.handleUseSample sample server) s)
    = analysisResults s ∧
  analysisSelection (run (Session.handleUseSample sample server) s)
    = analysisSelection s ∧
  match Session.sampleSucceeded sample server with
  | Some data =>
      uploadData (run (Session.handleUseSample sample server) s) = data ∧
      currentView (run (Session.handleUseSample sample server) s) = analysis ∧
      Session.alerts (Session.handleUseSample sample server) = []
  | None =>
      uploadData (run (Session.handleUseSample sample server) s) = uploadData s ∧
      currentView (run (Session.handleUseSample sample server) s)
        = currentView s ∧
      ∀ m, m ∈ Session.alerts (Session.handleUseSample sample server) →
           m = JS.str "Failed to load sample data. Please try again."
  end.
Proof.
  unfold Session.handleUseSample.
  destruct (Session.sampleSucceeded sample server) as [data|] eqn:Hok.
  - by destruct (sampleSettled_success _ _ _ Hok) as [text ->].
  - destruct (sampleSettled_failure _ _ Hok) as (middle & -> & Hq & Halerts).
    rewrite run_cons, run_append, (run_unchanged middle) by done.
    split_and!; try done.
    intros m. simpl. rewrite alerts_app. simpl. rewrite app_nil_r. apply Halerts.
Qed.

End Sample.


(** ** Handlers that run while a request is pending

    [handleAnalyze] gives up control at its [await].  No handler checks
    [isAnalyzing], and only the "Use Sample" button is disabled by it, so
    another handler can run before the answer arrives; the rest of
    [handleAnalyze] then continues from the state that handler left. *)

Section Pending.

Import App Session.

Lemma analyzeStarted_Some s selection body :
  (analyzeStarted s selection).2 = Some body →
  analyzeRequest (uploadData s) selection = Some body ∧
  (analyzeStarted s selection).1 =
    [setIsAnalyzing true; setAnalysisSelection selection;
     axios_post "/analyze" body].
Proof.
  unfold analyzeStarted.
  destruct (analyzeRequest (uploadData s) selection) as [b|]; [|done].
  by intros [= ->].
Qed.

Lemma waiting_Some s selection body :
  (analyzeStarted s selection).2 = Some body →
  waiting s selection =
    {| darkMode := darkMode s; uploadData := uploadData s;
       currentView := currentView s; analysisResults := analysisResults s;
       isAnalyzing := true; analysisSelection := selection |}.
Proof.
  intros [_ Hcalls]%analyzeStarted_Some. unfold waiting. by rewrite Hcalls.
Qed.

Lemma analyzeSettled_reported outcome data :
  reported outcome = Some data →
  analyzeSettled outcome =
    [setAnalysisResults (JS.get_opt data "results"); setCurrentView results;
     setIsAnalyzing false].
Proof.
  unfold reported, analyzeSettled, analyzeAnswered.
  destruct outcome as [response|error]; [|done].
  destruct (JS.get response "data") as [d|]; [simpl|done].
  destruct (JS.get d "success") as [success|]; [simpl|done].
  destruct (JS.truthy success); [|done]. by intros [= ->].
Qed.

Lemma analyzeSettled_keeps outcome s :
  isAnalyzing (run (analyzeSettled outcome) s) = false ∧
  analysisSelection (run (analyzeSettled outcome) s) = analysisSelection s ∧
  uploadData (run (analyzeSettled outcome) s) = uploadData s ∧
  darkMode (run (analyzeSettled outcome) s) = darkMode s.
Proof.
  destruct (analyzeSettled_quiet outcome) as (middle & -> & Hq).
  rewrite run_append.
  destruct (run_quiet middle s Hq) as (_ & Hs & Hu & Hd).
  change (run [setIsAnalyzing false] (run middle s))
    with (apply (setIsAnalyzing false) (run middle s)).
  simpl. by rewrite Hs, Hu, Hd.
Qed.

Lemma reportsSuccess_reported server s selection :
  reportsSuccess server s selection =
  body ← analyzeRequest (uploadData s) selection; reported (server body).
Proof. reflexivity. Qed.

End Pending.

(** X19: "Back to Upload" while an analysis is pending.  When
    [handleBackToUpload] runs between the request of [handleAnalyze] and an
    answer that reports success, the rest of [handleAnalyze] still stores
    the results and switches to the results view, now with [uploadData] and
    [analysisSelection] null: the results view is entered without a data
    set, and evaluating its [filename] prop, [uploadData.filename], throws.
    In between, the upload view is shown with [isAnalyzing] true. *)
Theorem answer_after_back_to_upload s selection body outcome data :
  (Session.analyzeStarted s selection).2 = Some body →
  Session.reported outcome = Some data →
  App.handleAnalyze (λ _, outcome) s selection =
    ((Session.analyzeStarted s selection).1
       ++ Session.analyzeSettled outcome)%list ∧
  App.run App.handleBackToUpload (Session.waiting s selection) =
    {| App.darkMode := App.darkMode s; App.uploadData := JS.null;
       App.currentView := App.upload; App.analysisResults := JS.null;
       App.isAnalyzing := true; App.analysisSelection := JS.null |} ∧
  App.run (Session.analyzeSettled outcome)
    (App.run App.handleBackToUpload (Session.waiting s selection)) =
    {| App.darkMode := App.darkMode s; App.uploadData := JS.null;
       App.currentView := App.results;
       App.analysisResults := JS.get_opt data "results";
       App.isAnalyzing := false; App.analysisSelection := JS.null |} ∧
  Session.filenameProp
    (App.run (Session.analyzeSettled outcome)
       (App.run App.handleBackToUpload (Session.waiting s selection))) = None.
Proof.
  intros Hstart Hok.
  assert (App.run (Session.analyzeSettled outcome)
            (App.run App.handleBackToUpload (Session.waiting s selection)) =
          {| App.darkMode := App.darkMode s; App.uploadData := JS.null;
             App.currentView := App.results;
             App.analysisResults := JS.get_opt data "results";
             App.isAnalyzing := false; App.analysisSelection := JS.null |})
    as Hend.
  { rewrite (waiting_Some _ _ _ Hstart), (analyzeSettled_reported _ _ Hok).
    reflexivity. }
  split_and!.
  - rewrite handleAnalyze_two_phases. by rewrite Hstart.
  - by rewrite (waiting_Some _ _ _ Hstart).
  - exact Hend.
  - by rewrite Hend.
Qed.

(** X20: two analyses in flight.  When [handleAnalyze] is called again
    while an earlier call waits for its answer, both requests are posted.
    The first answer to arrive, whichever it is and however it ends, puts
    [isAnalyzing] back to false while the other request is still pending.
    When the answer to the earlier request arrives last and reports success,
    its results are the ones stored and shown, while [analysisSelection]
    holds the selection of the later call. *)
Theorem analyze_requests_overlap s sel1 sel2 body1 body2 :
  (Session.analyzeStarted s sel1).2 = Some body1 →
  (Session.analyzeStarted (Session.waiting s sel1) sel2).2 = Some body2 →
  Session.posts ((Session.analyzeStarted s sel1).1 ++
                 (Session.analyzeStarted (Session.waiting s sel1) sel2).1)
    = [("/analyze", body1); ("/analyze", body2)] ∧
  App.isAnalyzing (Session.waiting (Session.waiting s sel1) sel2) = true ∧
  (∀ first,
     App.isAnalyzing
       (App.run (Session.analyzeSettled first)
          (Session.waiting (Session.waiting s sel1) sel2)) = false) ∧
  (∀ answer2 answer1 data1,
     Session.reported answer1 = Some data1 →
     App.run (Session.analyzeSettled answer1)
       (App.run (Session.analyzeSettled answer2)
          (Session.waiting (Session.waiting s sel1) sel2)) =
     {| App.darkMode := App.darkMode s; App.uploadData := App.uploadData s;
        App.currentView := App.results;
        App.analysisResults := JS.get_opt data1 "results";
        App.isAnalyzing := false; App.analysisSelection := sel2 |}).
Proof.
  intros Hfirst Hsecond.
  pose proof (analyzeStarted_Some _ _ _ Hfirst) as [_ Hcalls1].
  pose proof (analyzeStarted_Some _ _ _ Hsecond) as [_ Hcalls2].
  rewrite (waiting_Some _ _ _ Hsecond).
  rewrite Hcalls1, Hcalls2. rewrite (waiting_Some _ _ _ Hfirst). simpl.
  split_and!; [done|done| |].
  - intros first. apply analyzeSettled_keeps.
  - intros answer2 answer1 data1 Hok.
    rewrite (analyzeSettled_reported _ _ Hok).
    match goal with
    | |- context [App.run (Session.analyzeSettled answer2) ?s0] =>
        destruct (analyzeSettled_keeps answer2 s0) as (_ & Hsel & Hdata & Hdark)
    end.
    simpl in *. by rewrite Hsel, Hdata, Hdark.
Qed.

Lemma answer_after_back_to_upload_witness :
  (Session.analyzeStarted analysisState pearsonSelection).2 =
    Some (JS.object [("test_id", JS.str "pearson");
                     ("variables", JS.array [JS.str "score"; JS.str "age"]);
                     ("group_variable", JS.undefined);
                     ("filename", JS.str "data.csv")]) ∧
  App.currentView
    (App.run (Session.analyzeSettled (Inputs.answer "pearson_correlation"))
       (App.run App.handleBackToUpload
          (Session.waiting analysisState pearsonSelection))) = App.results ∧
  Session.filenameProp
    (App.run (Session.analyzeSettled (Inputs.answer "pearson_correlation"))
       (App.run App.handleBackToUpload
          (Session.waiting analysisState pearsonSelection))) = None.
Proof.
  pose proof (answer_after_back_to_upload analysisState pearsonSelection _
                (Inputs.answer "pearson_correlation") _ eq_refl eq_refl)
    as (_ & _ & Hend & Hthrows).
  split; [reflexivity|]. split; [|exact Hthrows].
  exact (f_equal App.currentView Hend).
Defined.

Lemma analyze_requests_overlap_witness :
  (Session.analyzeStarted analysisState pearsonSelection).2 =
    Some (JS.object [("test_id", JS.str "pearson");
                     ("variables", JS.array [JS.str "score"; JS.str "age"]);
                     ("group_variable", JS.undefined);
                     ("filename", JS.str "data.csv")]) ∧
  (Session.analyzeStarted (Session.waiting analysisState pearsonSelection)
     Inputs.spearmanSelection).2 =
    Some (JS.object [("test_id", JS.str "spearman");
                     ("variables", JS.array [JS.str "age"; JS.str "score"]);
                     ("group_variable", JS.undefined);
                     ("filename", JS.str "data.csv")]) ∧
  App.run (Session.analyzeSettled (Inputs.answer "pearson_correlation"))
    (App.run (Session.analyzeSettled (Inputs.answer "spearman_correlation"))
       (Session.waiting (Session.waiting analysisState pearsonSelection)
          Inputs.spearmanSelection)) =
  {| App.darkMode := false; App.uploadData := uploaded;
     App.currentView := App.results;
     App.analysisResults := JS.object [("test", JS.str "pearson_correlation")];
     App.isAnalyzing := false;
     App.analysisSelection := Inputs.spearmanSelection |}.
Proof.
  pose proof (analyze_requests_overlap analysisState pearsonSelection
                Inputs.spearmanSelection _ _ eq_refl eq_refl)
    as (_ & _ & _ & Hcross).
  split; [reflexivity|]. split; [reflexivity|].
  exact (Hcross (Inputs.answer "spearman_correlation")
                (Inputs.answer "pearson_correlation") _ eq_refl).
Defined.
